(** * libRmath.js: signed-rank engine, noncentral t CDF and binomial CDF

    A shallow embedding of [src/lib/signrank/signrank.ts] (which also
    carries the noncentral-t routine [_pnt]) and [src/lib/binomial/pbinom.ts].

    JavaScript numbers are IEEE-754 binary64 values, so they are embedded
    as Rocq's primitive [float]; every arithmetic step of the source is the
    corresponding primitive operation and evaluates inside Rocq.  Module
    level variables ([w], [allocated_n]) become an explicit [state];
    exceptions and unbounded loops are made explicit in [outcome]. *)

From Stdlib Require Import ZArith List Bool Lia Floats String.
From Stdlib Require Uint63.
Import ListNotations.

Set Warnings "-inexact-float".
Local Open Scope float_scope.

(** ** JavaScript values *)

Module JS.

(** A value read from an array slot: a number, or [undefined] for a hole. *)
Definition value := option float.

Definition undefined : value := None.

(** [ToNumber]: [undefined] converts to NaN. *)
Definition ToNumber (v : value) : float :=
  match v with
  | Some x => x
  | None => nan
  end.

(** [v === x] for a number [x]: false on [undefined], IEEE equality otherwise. *)
Definition strict_eq (v : value) (x : float) : bool :=
  match v with
  | Some y => y =? x
  | None => false
  end.

(** The integer a finite integral float denotes; [None] for fractional
    and non-finite numbers. *)
Definition to_integer (x : float) : option Z :=
  match Prim2SF x with
  | S754_zero _ => Some 0%Z
  | S754_finite s m e =>
      let mag :=
        if (0 <=? e)%Z then Some (Z.shiftl (Zpos m) e)
        else if (Z.land (Zpos m) (Z.ones (- e)) =? 0)%Z
             then Some (Z.shiftr (Zpos m) (- e))
             else None in
      match mag with
      | Some z => Some (if s then (- z)%Z else z)
      | None => None
      end
  | _ => None
  end.

(** Exact conversion of a small integer to a number. *)
Definition of_Z (z : Z) : float :=
  if (z <? 0)%Z then - of_uint63 (Uint63.of_Z (- z))
  else of_uint63 (Uint63.of_Z z).

(** Array objects: the [length] property and the own properties that
    have been written.  Property keys are numbers (their canonical
    string form is determined by the number, [-0] and [0] sharing a key). *)
Record array := mkArray { length : Z; slots : list (float * float) }.

Definition same_key (a b : float) : bool :=
  (is_nan a && is_nan b) || (a =? b).

Fixpoint lookup (k : float) (l : list (float * float)) : value :=
  match l with
  | [] => None
  | (k', v) :: l' => if same_key k k' then Some v else lookup k l'
  end.

Fixpoint store (k v : float) (l : list (float * float)) : list (float * float) :=
  match l with
  | [] => [(k, v)]
  | (k', v') :: l' =>
      if same_key k k' then (k', v) :: l' else (k', v') :: store k v l'
  end.

(** [a[i]] *)
Definition get (a : array) (i : float) : value := lookup i (slots a).

(** An array index is an integer in [0, 2^32 - 2]; writing at one
    extends [length], other keys are plain properties. *)
Definition index_of (i : float) : option Z :=
  match to_integer i with
  | Some z => if ((0 <=? z) && (z <? 4294967295))%Z then Some z else None
  | None => None
  end.

(** [a[i] = v] *)
Definition set (a : array) (i v : float) : array :=
  {| length := match index_of i with
               | Some z => Z.max (length a) (z + 1)
               | None => length a
               end;
     slots := store i v (slots a) |}.

(** [new Array(len)]: a RangeError ([None]) unless [len] is an integer
    in [0, 2^32 - 1]; otherwise [len] holes. *)
Definition new_Array (len : float) : option array :=
  match to_integer len with
  | Some z =>
      if ((0 <=? z) && (z <? 4294967296))%Z
      then Some {| length := z; slots := [] |}
      else None
  | None => None
  end.

Inductive exn := RangeError | TypeError.

End JS.

(** ** Numeric helpers imported from [_general] *)

(** Diagnostics the library reports: [debug] printer lines (format string
    only), [ML_ERROR] codes and [MATHLIB_WARNING] lines. *)
Inductive ME := ME_DOMAIN | ME_RANGE | ME_NOCONV | ME_PRECISION | ME_UNDERFLOW.

Inductive diag :=
| Debug (fmt : string)
| MLError (code : ME) (where_ : string)
| Warning (fmt : string).

Definition ISNAN (x : float) : bool := is_nan x.
Definition R_FINITE (x : float) : bool := is_finite x.
Definition fabs (x : float) : float := abs x.

Definition M_LN2 : float := 0.693147180559945309417.
Definition DBL_EPSILON : float := 0x1p-52.

(** Modelled from the spec: [R_forceint] of [_general] (absent from the
    sources) rounds to the nearest integer; ties go to the even
    neighbour as C's [nearbyint] does. *)
Definition R_forceint (x : float) : float :=
  match Prim2SF x with
  | S754_finite s m e =>
      if (0 <=? e)%Z then x
      else
        let q := Z.shiftr (Zpos m) (- e) in
        let r := Z.land (Zpos m) (Z.ones (- e)) in
        let half := Z.shiftl 1 (- e - 1) in
        let z := if (r <? half)%Z then q
                 else if (half <? r)%Z then (q + 1)%Z
                 else if Z.even q then q else (q + 1)%Z in
        if s then - JS.of_Z z else JS.of_Z z
  | _ => x
  end.

(** Modelled from the spec: [trunc] of [_general] (absent) drops the
    fractional part, as [Math.trunc]. *)
Definition trunc (x : float) : float :=
  match Prim2SF x with
  | S754_finite s m e =>
      if (0 <=? e)%Z then x
      else
        let z := Z.shiftr (Zpos m) (- e) in
        if s then - JS.of_Z z else JS.of_Z z
  | _ => x
  end.

(** Modelled from the spec: [floor] of [_general] (absent), as [Math.floor]. *)
Definition floor (x : float) : float :=
  match Prim2SF x with
  | S754_finite s m e =>
      if (0 <=? e)%Z then x
      else
        let q := Z.shiftr (Zpos m) (- e) in
        let r := Z.land (Zpos m) (Z.ones (- e)) in
        if s then - JS.of_Z (if (r =? 0)%Z then q else (q + 1)%Z)
        else JS.of_Z q
  | _ => x
  end.

(** Modelled from the spec: [imin2] and [fmax2] (absent). *)
Definition imin2 (x y : float) : float := if x <? y then x else y.

Definition fmax2 (x y : float) : float :=
  if ISNAN x || ISNAN y then x + y else if x <? y then y else x.

(** Modelled from the spec: the boundary helpers of [_general] (absent):
    "given tail/log flags, return the correctly transformed
    representation of an exact 0, exact 1". *)
Definition R_D__0 (log_p : bool) : float := if log_p then neg_infinity else 0.
Definition R_D__1 (log_p : bool) : float := if log_p then 0 else 1.
Definition R_DT_0 (lower_tail log_p : bool) : float :=
  if lower_tail then R_D__0 log_p else R_D__1 log_p.
Definition R_DT_1 (lower_tail log_p : bool) : float :=
  if lower_tail then R_D__1 log_p else R_D__0 log_p.

(** Modelled from the spec: [R_Q_P01_check] (absent) yields NaN for an
    illegal probability and [undefined] ([None]) for a legal one. *)
Definition R_Q_P01_check (log_p : bool) (p : float) : option float :=
  if (log_p && (0 <? p)) || (negb log_p && ((p <? 0) || (1 <? p)))
  then Some nan else None.

(** Modelled from the spec: [R_nonint] (absent), "integrality of n". *)
Definition R_nonint (x : float) : bool :=
  1e-7 * fmax2 1 (fabs x) <? fabs (x - R_forceint x).

(** The transcendental functions of [Math] and the distribution
    primitives of the sibling modules are collaborators: the development
    is parametric in them. *)
Class Collaborators := {
  exp : float -> float;
  log : float -> float;
  log1p : float -> float;
  expm1 : float -> float;
  pow : float -> float -> float;
  lgammafn : float -> float;
  pbeta : float -> float -> float -> bool -> bool -> float;
  pnorm : float -> float -> float -> bool -> bool -> float;
  pt : float -> float -> bool -> bool -> float
}.

Section Tail.
Context {C : Collaborators}.

(** Modelled from the spec: [R_DT_val] and [R_DT_qIv] (absent), the
    tail/log transform of a computed probability and its inverse. *)
Definition R_DT_val (lower_tail log_p : bool) (x : float) : float :=
  if lower_tail then (if log_p then log x else x)
  else (if log_p then log1p (- x) else 0.5 - x + 0.5).

Definition R_DT_qIv (lower_tail log_p : bool) (p : float) : float :=
  if log_p then (if lower_tail then exp p else - expm1 p)
  else (if lower_tail then p else 0.5 - p + 0.5).
End Tail.

(** ** Signed-rank engine ([signrank.ts]) *)

(** The module-level variables [w] and [allocated_n] (both start out
    [undefined]) and the diagnostics reported so far. *)
Record state := mkState {
  w : option JS.array;
  allocated_n : option float;
  diags : list diag
}.

Definition initial_state : state :=
  {| w := None; allocated_n := None; diags := [] |}.

(** What a call does: it returns a value in a new state, throws, or is
    still running when the fuel given to its loops is used up. *)
Inductive outcome (A : Type) :=
| Return (a : A) (s : state)
| Throws (e : JS.exn)
| Timeout.
Arguments Return {A} a s.
Arguments Throws {A} e.
Arguments Timeout {A}.

Definition bind {A B} (m : outcome A) (k : A -> state -> outcome B) : outcome B :=
  match m with
  | Return a s => k a s
  | Throws e => Throws e
  | Timeout => Timeout
  end.

Definition value_of {A} (m : outcome A) : option A :=
  match m with
  | Return a _ => Some a
  | _ => None
  end.

Definition state_of {A} (m : outcome A) : option state :=
  match m with
  | Return _ s => Some s
  | _ => None
  end.

(** [w_init_maybe]: the array constructor either throws or yields an
    object, and objects are truthy, so the [MATHLIB_ERROR] line is dead. *)
Definition w_init_maybe (n : float) (s : state) : outcome unit :=
  let u := n * (n + 1) / 2 in
  let c := u / 2 in
  match JS.new_Array (c + 1) with
  | None => Throws JS.RangeError
  | Some a =>
      Return tt {| w := Some a; allocated_n := Some n; diags := diags s |}
  end.

(** [for (i = end; i >= j; --i) w[i] += w[i - j];] *)
Fixpoint csignrank_inner (fuel : nat) (j i : float) (a : JS.array)
  : option JS.array :=
  match fuel with
  | O => None
  | S fuel' =>
      if j <=? i then
        csignrank_inner fuel' j (i - 1)
          (JS.set a i (JS.ToNumber (JS.get a i) + JS.ToNumber (JS.get a (i - j))))
      else Some a
  end.

(** [for (j = 2; j < n + 1; ++j) { end = imin2(j*(j+1)/2, c); ... }] *)
Fixpoint csignrank_outer (fuel inner : nat) (n c j : float) (a : JS.array)
  : option JS.array :=
  match fuel with
  | O => None
  | S fuel' =>
      if j <? n + 1 then
        let end_ := imin2 (j * (j + 1) / 2) c in
        match csignrank_inner inner j end_ a with
        | Some a' => csignrank_outer fuel' inner n c (j + 1) a'
        | None => None
        end
      else Some a
  end.

Definition csignrank (fuel : nat) (k n : float) (s : state) : outcome JS.value :=
  let u := n * (n + 1) / 2 in
  let c := u / 2 in
  if (k <? 0) || (u <? k) then Return (Some 0) s
  else
    let k := if c <? k then u - k else k in
    if n =? 1 then Return (Some 1) s
    else
      match w s with
      | None => Throws JS.TypeError
      | Some a =>
          if JS.strict_eq (JS.get a 0) 1 then Return (JS.get a k) s
          else
            let a1 := JS.set (JS.set a 1 1) 0 1 in
            match csignrank_outer fuel fuel n c 2 a1 with
            | None => Timeout
            | Some a' =>
                Return (JS.get a' k)
                  {| w := Some a'; allocated_n := allocated_n s; diags := diags s |}
            end
      end.

(** Modelled from the spec: [ML_ERR_return_NAN] (absent) reports a domain
    error and yields NaN when it is called. *)
Definition ML_ERR_return_NAN (_ : unit) : list diag * float :=
  ([MLError ME_DOMAIN ""], nan).

(** An expression statement that only names a value, such as the line
    [ML_ERR_return_NAN;]: the value is looked up and dropped, nothing is
    called and control continues with the next statement. *)
Definition expression_statement {A B : Type} (_ : A) (next : B) : B := next.

(** [return ML_ERR_return_NAN();] inside the signed-rank module. *)
Definition return_ML_ERR_NAN (s : state) : outcome float :=
  let '(d, v) := ML_ERR_return_NAN tt in
  Return v {| w := w s; allocated_n := allocated_n s; diags := diags s ++ d |}.

Section Signrank.
Context {C : Collaborators}.

(** [for (i = ...; i <= x; i++) p += csignrank(i, nn) * f;] when
    [strict] is false, and the loop with [i < x] when it is true. *)
Fixpoint psignrank_loop (fuel : nat) (strict : bool) (x nn f i p : float)
    (s : state) : outcome float :=
  match fuel with
  | O => Timeout
  | S fuel' =>
      if (if strict then i <? x else i <=? x) then
        bind (csignrank fuel i nn s) (fun v s' =>
          psignrank_loop fuel' strict x nn f (i + 1) (p + JS.ToNumber v * f) s')
      else Return p s
  end.

Definition psignrank (fuel : nat) (x n : float) (lower_tail log_p : bool)
    (s : state) : outcome float :=
  if ISNAN x || ISNAN n then Return (x + n) s
  else
    expression_statement
      (if negb (R_FINITE n) then Some ML_ERR_return_NAN else None)
    (let n := R_forceint n in
     expression_statement
       (if n <=? 0 then Some ML_ERR_return_NAN else None)
     (let x := R_forceint (x + 1e-7) in
      if x <? 0 then Return (R_DT_0 lower_tail log_p) s
      else if n * (n + 1) / 2 <=? x then Return (R_DT_1 lower_tail log_p) s
      else
        let nn := trunc n in
        bind (w_init_maybe nn s) (fun _ s1 =>
          let f := exp (- n * M_LN2) in
          if x <=? n * (n + 1) / 4 then
            bind (psignrank_loop fuel false x nn f 0 0 s1) (fun p s2 =>
              Return (R_DT_val lower_tail log_p p) s2)
          else
            let x := n * (n + 1) / 2 - x in
            bind (psignrank_loop fuel true x nn f 0 0 s1) (fun p s2 =>
              Return (R_DT_val (negb lower_tail) log_p p) s2)))).

(** The scan of the lower half:
    [while (true) { p += csignrank(q, nn) * f; if (p >= x) break; q++; }] *)
Fixpoint qsignrank_scan_low (fuel : nat) (x nn f p q : float) (s : state)
    : outcome float :=
  match fuel with
  | O => Timeout
  | S fuel' =>
      bind (csignrank fuel q nn s) (fun v s' =>
        let p := p + JS.ToNumber v * f in
        if x <=? p then Return q s'
        else qsignrank_scan_low fuel' x nn f p (q + 1) s')
  end.

(** The scan of the upper half, which maps [q] back on exit. *)
Fixpoint qsignrank_scan_high (fuel : nat) (x n nn f p q : float) (s : state)
    : outcome float :=
  match fuel with
  | O => Timeout
  | S fuel' =>
      bind (csignrank fuel q nn s) (fun v s' =>
        let p := p + JS.ToNumber v * f in
        if x <? p then Return (trunc (n * (n + 1) / 2 - q)) s'
        else qsignrank_scan_high fuel' x n nn f p (q + 1) s')
  end.

Definition qsignrank (fuel : nat) (x n : float) (lower_tail log_p : bool)
    (s : state) : outcome float :=
  if ISNAN x || ISNAN n then Return (x + n) s
  else if negb (R_FINITE x) || negb (R_FINITE n) then return_ML_ERR_NAN s
  else
    match R_Q_P01_check log_p x with
    | Some rc => Return rc s
    | None =>
        let n := R_forceint n in
        expression_statement
          (if n <=? 0 then Some ML_ERR_return_NAN else None)
        (if x =? R_DT_0 lower_tail log_p then Return 0 s
         else if x =? R_DT_1 lower_tail log_p then Return (n * (n + 1) / 2) s
         else
           let x := if log_p || negb lower_tail
                    then R_DT_qIv lower_tail log_p x else x in
           let nn := trunc n in
           bind (w_init_maybe nn s) (fun _ s1 =>
             let f := exp (- n * M_LN2) in
             if x <=? 0.5 then
               let x := x - 10 * DBL_EPSILON in
               qsignrank_scan_low fuel x nn f 0 0 s1
             else
               let x := 1 - x + 10 * DBL_EPSILON in
               qsignrank_scan_high fuel x n nn f 0 0 s1))
    end.

End Signrank.

(** ** Noncentral t CDF ([_pnt], algorithm AS 243) *)

Definition DBL_MIN_EXP : float := -1021.
Definition M_SQRT_2dPI : float := 0.797884560802865355879892119869.
Definition M_LN_SQRT_PI : float := 0.572364942924700087071713675677.
Definition itrmax : nat := 1000.
Definition errmax : float := 1e-12.

(** The format strings handed to the [debug] printer. *)
Definition msg_shortcut : string := "if x <=0 and solution for edge ncp > 40".
Definition msg_asymptotic : string :=
  "Abramowitz & Stegun 26.7.10 ncp:%d, del:%d, ncp2:%d, del2:%d, D:%d".
Definition msg_series : string := "pnt(t=%d, df=%d, ncp=%d, rxb=%d) ==> x= %d".
Definition msg_final : string := "rc:%d, tnc:%d, log_p:%s, lower_tail:%s".

(** The variables the twin series updates on every iteration. *)
Record twin := mkTwin {
  t_a : float; t_xodd : float; t_xeven : float; t_godd : float;
  t_geven : float; t_p : float; t_q : float; t_tnc : float; t_s : float
}.

(** [fmin2] is [Math.min]: NaN if either argument is NaN, and [-0]
    counts as smaller than [0]. *)
Definition fmin2 (x y : float) : float :=
  if ISNAN x || ISNAN y then nan
  else if y <? x then y
  else if x <? y then x
  else if (x =? 0) && (1 / y <? 0) then y else x.

Section Pnt.
Context {C : Collaborators}.

(** [for (let it = 1; it <= itrmax; it++) { ... }]: [left] counts the
    iterations that remain, [it] is the loop variable.  The result is
    the diagnostics, the final [tnc] and the flag [gotoFinis]. *)
Fixpoint pnt_series (left : nat) (it x b lambda : float) (v : twin)
    : list diag * float * bool :=
  match left with
  | O => ([], t_tnc v, false)
  | S left' =>
      let a := t_a v + 1 in
      let xodd := t_xodd v - t_godd v in
      let xeven := t_xeven v - t_geven v in
      let godd := t_godd v * (x * (a + b - 1) / a) in
      let geven := t_geven v * (x * (a + b - 0.5) / (a + 0.5)) in
      let p := t_p v * (lambda / (2 * it)) in
      let q := t_q v * (lambda / (2 * it + 1)) in
      let tnc := t_tnc v + (p * xodd + q * xeven) in
      let s := t_s v - p in
      if s <? -1e-10 then
        ([MLError ME_PRECISION "pnt";
          Debug "goto:true, s = %d < 0 !!! ---> non-convergence!!"], tnc, true)
      else if s <=? 0 then
        ([Debug "goto:true, s:%d < 0 && it:%d>1"], tnc, true)
      else
        let errbd := 2 * s * (xodd - godd) in
        let line := Debug "%d %d %d|%d %d %d %d %d" in
        if fabs errbd <? errmax then
          ([line; Debug "goto:true, errbd:%d < errmax:%d"], tnc, true)
        else
          let '(d, r, g) :=
            pnt_series left' (it + 1) x b lambda
              (mkTwin a xodd xeven godd geven p q tnc s) in
          (line :: d, r, g)
  end.

(** The tail shared by the series regime and the [x = 0] case: add the
    normal-CDF piece, flip the tail, clamp and transform. *)
Definition pnt_finis (d : list diag) (tnc del : float) (negdel : bool)
    (lower_tail log_p : bool) : list diag * float :=
  let tnc := tnc + pnorm (- del) 0 1 true false in
  let lower_tail := xorb lower_tail negdel in
  let d1 := if (1 - 1e-10 <? tnc) && lower_tail
            then [MLError ME_PRECISION "pnt{final}"] else [] in
  let rc := R_DT_val lower_tail log_p (fmin2 tnc 1) in
  (d ++ d1 ++ [Debug msg_final], rc).

Definition _pnt (_t df ncp : float) (lower_tail log_p : bool)
    : list diag * float :=
  if df <=? 0 then ML_ERR_return_NAN tt
  else if ncp =? 0 then ([], pt _t df lower_tail log_p)
  else if negb (R_FINITE _t) then
    ([], if _t <? 0 then R_DT_0 lower_tail log_p else R_DT_1 lower_tail log_p)
  else
    let negdel := _t <? 0 in
    let tt' := fabs _t in
    let del := if 0 <=? _t then ncp else - ncp in
    if (_t <? 0) && (40 <? ncp) && (negb log_p || negb lower_tail) then
      ([Debug msg_shortcut], R_DT_0 lower_tail log_p)
    else if (4e5 <? df) || (2 * M_LN2 * - DBL_MIN_EXP <? del * del) then
      let _s := 1 / (4 * df) in
      ([Debug msg_asymptotic],
       pnorm (tt' * (1 - _s)) del (sqrt (1 + tt' * tt' * 2 * _s))
             (xorb lower_tail negdel) log_p)
    else
      let x := _t * _t in
      let rxb := df / (x + df) in
      let x := x / (x + df) in
      let d0 := [Debug msg_series] in
      if 0 <? x then
        let lambda := del * del in
        let p := 0.5 * exp (-0.5 * lambda) in
        let d1 := d0 ++ [Debug "x > 0 branch"; Debug "p=%d"] in
        if p =? 0 then
          (d1 ++ [Debug "p=%d, underflow protection";
                  MLError ME_UNDERFLOW "pnt"; MLError ME_RANGE "pnt"],
           R_DT_0 lower_tail log_p)
        else
          let q := M_SQRT_2dPI * p * del in
          let s := 0.5 - p in
          let s := if s <? 1e-7 then -0.5 * expm1 (-0.5 * lambda) else s in
          let a := 0.5 in
          let b := 0.5 * df in
          let rxb := pow rxb b in
          let albeta := M_LN_SQRT_PI + lgammafn b - lgammafn (0.5 + b) in
          let xodd := pbeta x a b true false in
          let godd := 2 * rxb * exp (a * log x - albeta) in
          let tnc := b * x in
          let xeven := if tnc <? DBL_EPSILON then tnc else 1 - rxb in
          let geven := tnc * rxb in
          let tnc := p * xodd + q * xeven in
          let '(dl, tnc, gotoFinis) :=
            pnt_series itrmax 1 x b lambda
              (mkTwin a xodd xeven godd geven p q tnc s) in
          let d2 :=
            d1 ++ [Debug "it  1e5*(godd,   geven)|          p           q           s        pnt(*)     errbd";
                   Debug "return from pbeta:%d"]
               ++ dl
               ++ (if gotoFinis then [] else [MLError ME_NOCONV "pnt"]) in
          pnt_finis d2 tnc del negdel lower_tail log_p
      else
        pnt_finis d0 0 del negdel lower_tail log_p.

(** Modelled from the spec: [map] of [r-func] (absent) applies the
    scalar routine to a scalar, or to each element of a sequence in
    order. *)
Inductive scalar_or_seq (A : Type) :=
| Scalar (x : A)
| Seq (xs : list A).

Definition pnt (tt' : scalar_or_seq float) (df ncp : float)
    (lowerTail logP : bool) : scalar_or_seq (list diag * float) :=
  match tt' with
  | Scalar _ t => Scalar _ (_pnt t df ncp lowerTail logP)
  | Seq _ ts => Seq _ (List.map (fun t => _pnt t df ncp lowerTail logP) ts)
  end.

End Pnt.

Arguments Scalar {A} x.
Arguments Seq {A} xs.

(** ** Binomial CDF ([pbinom.ts]) *)

Section Pbinom.
Context {C : Collaborators}.

Definition pbinom (x n p : float) (lower_tail log_p : bool)
    : list diag * float :=
  if ISNAN x || ISNAN n || ISNAN p then ([], x + n + p)
  else if negb (R_FINITE n) || negb (R_FINITE p) then ML_ERR_return_NAN tt
  else
    let d := if R_nonint n
             then expression_statement ML_ERR_return_NAN
                    [Warning "non-integer n = %f"]
             else [] in
    let n := R_forceint n in
    expression_statement
      (if (n <? 0) || (p <? 0) || (1 <? p) then Some ML_ERR_return_NAN else None)
    (if x <? 0 then (d, R_DT_0 lower_tail log_p)
     else
       let x := floor (x + 1e-7) in
       if n <=? x then (d, R_DT_1 lower_tail log_p)
       else (d, pbeta p (x + 1) (n - x) (negb lower_tail) log_p)).

End Pbinom.

(** A concrete set of collaborators, used to run the parametric
    definitions: [exp] answers [2^-4], which is [exp(-4 ln 2)], and the
    distribution primitives answer probabilities. *)
Definition sample_collaborators : Collaborators :=
  {| exp := fun _ => 0.0625;
     log := fun x => x;
     log1p := fun x => x;
     expm1 := fun x => x;
     pow := fun x _ => x;
     lgammafn := fun x => x;
     pbeta := fun _ _ _ _ _ => 0.5;
     pnorm := fun _ _ _ _ _ => 0.25;
     pt := fun _ _ _ _ => 0.5 |}.

(** ** States and results the properties refer to *)

(** The table [csignrank] leaves behind for [n = 4]: slots 0 and 1 hold
    1, the other four hold NaN, because the build adds into holes. *)
Definition table4 : JS.array :=
  {| JS.length := 6;
     JS.slots := [(1, 1); (0, 1); (3, nan); (2, nan); (5, nan); (4, nan)] |}.

Definition fresh4 (s : state) : state :=
  {| w := Some {| JS.length := 6; JS.slots := [] |};
     allocated_n := Some 4; diags := diags s |}.

Definition built4 (s : state) : state :=
  {| w := Some table4; allocated_n := Some 4; diags := diags s |}.

(** The length of the table [w_init_maybe(n)] leaves, if it returns. *)
Definition w_init_length (n : Z) : option Z :=
  match w_init_maybe (JS.of_Z n) initial_state with
  | Return _ s => option_map JS.length (w s)
  | _ => None
  end.

(** What the extreme-left-tail shortcut returns: its one debug line and
    the 0-probability boundary value. *)
Definition shortcut_result (lower_tail log_p : bool) : list diag * float :=
  ([Debug msg_shortcut], R_DT_0 lower_tail log_p).

(** ** The remaining entry points of [signrank.ts] *)

Section SignrankDensity.
Context {C : Collaborators}.

(** Modelled from the spec: [R_D_exp] (absent) gives the log form
    directly when [give_log] is set and exponentiates otherwise. *)
Definition R_D_exp (give_log : bool) (x : float) : float :=
  if give_log then x else exp x.

Definition dsignrank (fuel : nat) (x n : float) (give_log : bool) (s : state)
    : outcome float :=
  if ISNAN x || ISNAN n then Return (x + n) s
  else
    let n := R_forceint n in
    if n <=? 0 then return_ML_ERR_NAN s
    else if 1e-7 <? fabs (x - R_forceint x) then Return (R_D__0 give_log) s
    else
      let x := R_forceint x in
      if (x <? 0) || (n * (n + 1) / 2 <? x) then Return (R_D__0 give_log) s
      else
        let nn := trunc n in
        bind (w_init_maybe nn s) (fun _ s1 =>
          bind (csignrank fuel (trunc x) nn s1) (fun v s2 =>
            Return (R_D_exp give_log (log (JS.ToNumber v) - n * M_LN2)) s2)).

End SignrankDensity.

(** [for (i = 0; i < k; ) { r += (++i) * floor(unif_rand() + 0.5); }]
    where the uniform generator of [_unif_random] is a stream [unif] read
    at position [pos]; the result is [r] and the position reached. *)
Fixpoint rsignrank_loop (fuel : nat) (unif : nat -> float) (pos : nat)
    (k i r : float) : option (float * nat) :=
  match fuel with
  | O => None
  | S fuel' =>
      if i <? k then
        let i := i + 1 in
        rsignrank_loop fuel' unif (S pos) k i (r + i * floor (unif pos + 0.5))
      else Some (r, pos)
  end.

Definition rsignrank (fuel : nat) (unif : nat -> float) (pos : nat) (n : float)
    : option (float * nat) :=
  if ISNAN n then Some (n, pos)
  else
    let n := R_forceint n in
    expression_statement (if n <? 0 then Some ML_ERR_return_NAN else None)
    (if n =? 0 then Some (0, pos)
     else rsignrank_loop fuel unif pos (floor n) 0 0).

(** ** What a caller observes *)

(** The result of a call without the state it leaves. *)
Inductive result (A : Type) :=
| Value (a : A)
| Raised (e : JS.exn)
| Running.
Arguments Value {A} a.
Arguments Raised {A} e.
Arguments Running {A}.

Definition result_of {A} (o : outcome A) : result A :=
  match o with
  | Return a _ => Value a
  | Throws e => Raised e
  | Timeout => Running
  end.

(** Two outcomes agree when they give the same result and, if they
    return, leave the same table. *)
Definition same_outcome {A} (o1 o2 : outcome A) : Prop :=
  match o1, o2 with
  | Return a1 s1, Return a2 s2 => a1 = a2 /\ w s1 = w s2
  | Throws e1, Throws e2 => e1 = e2
  | Timeout, Timeout => True
  | _, _ => False
  end.

(** A call that returns has reported nothing. *)
Definition keeps_diags {A} (s : state) (o : outcome A) : Prop :=
  match o with
  | Return _ s' => diags s' = diags s
  | _ => True
  end.

(** The NaN entries a run of [_pnt] reports for non-convergence. *)
Definition is_noconv (d : diag) : bool :=
  match d with
  | MLError ME_NOCONV _ => true
  | _ => false
  end.

(** The line the series loop prints once per completed iteration. *)
Definition iteration_line : diag := Debug "%d %d %d|%d %d %d %d %d".

Definition is_iteration_line (d : diag) : bool :=
  match d with
  | Debug fmt => String.eqb fmt "%d %d %d|%d %d %d %d %d"
  | _ => false
  end.

(** [del] as [_pnt] computes it: [ncp] with the sign of [t]. *)
Definition pnt_del (t ncp : float) : float := if 0 <=? t then ncp else - ncp.

(** The only exception a call may end in is the RangeError of the
    array constructor. *)
Definition throws_at_most_RangeError {A} (o : outcome A) : Prop :=
  match o with
  | Throws e => e = JS.RangeError
  | _ => True
  end.

(** A call that does not throw and, when it returns, leaves a table. *)
Definition table_safe {A} (o : outcome A) : Prop :=
  match o with
  | Return _ s' => w s' <> None
  | Throws _ => False
  | Timeout => True
  end.

(** The array [w_init_maybe(n)] asks for, for an integer [n]. *)
Definition new_Array_for (n : Z) : option JS.array :=
  JS.new_Array (JS.of_Z n * (JS.of_Z n + 1) / 2 / 2 + 1).

(** * Properties *)

(** ** Facts about binary64 arithmetic *)

Module FloatFacts.

Lemma SFcompare_antisym (a b : spec_float) :
  SFcompare b a = option_map CompOpp (SFcompare a b).
Proof.
  destruct a as [sa|sa| |sa ma ea], b as [sb|sb| |sb mb eb]; simpl;
    try reflexivity;
    try (destruct sa; reflexivity);
    try (destruct sb; reflexivity);
    try (destruct sa, sb; reflexivity).
  destruct sa, sb; simpl; try reflexivity;
    rewrite (Z.compare_antisym ea eb);
    destruct (ea ?= eb)%Z; simpl; try reflexivity;
    rewrite (Pos.compare_cont_antisym ma mb Eq); simpl;
    destruct (Pos.compare_cont Eq ma mb); reflexivity.
Qed.

Lemma ltb_leb_false (a b : float) : (a <? b) = true -> (b <=? a) = false.
Proof.
  rewrite FloatAxioms.ltb_spec, FloatAxioms.leb_spec. unfold SFltb, SFleb.
  rewrite (SFcompare_antisym (Prim2SF a) (Prim2SF b)).
  destruct (SFcompare (Prim2SF a) (Prim2SF b)) as [[ | | ]|]; simpl; congruence.
Qed.

Lemma leb_ltb_false (a b : float) : (a <=? b) = true -> (b <? a) = false.
Proof.
  rewrite FloatAxioms.ltb_spec, FloatAxioms.leb_spec. unfold SFltb, SFleb.
  rewrite (SFcompare_antisym (Prim2SF a) (Prim2SF b)).
  destruct (SFcompare (Prim2SF a) (Prim2SF b)) as [[ | | ]|]; simpl; congruence.
Qed.

Lemma SFcompare_refl (a : spec_float) :
  a <> S754_nan -> SFcompare a a = Some Eq.
Proof.
  destruct a as [s|s| |s m e]; simpl; intros H; try congruence.
  - destruct s; reflexivity.
  - destruct s; rewrite Z.compare_refl, Pos.compare_cont_refl; reflexivity.
Qed.

(** [ISNAN] recognises exactly the NaN of the specification. *)
Lemma is_nan_spec (x : float) : is_nan x = true <-> Prim2SF x = S754_nan.
Proof.
  unfold is_nan. rewrite FloatAxioms.eqb_spec. unfold SFeqb. split.
  - intros H. destruct (Prim2SF x) eqn:E; try reflexivity;
      rewrite SFcompare_refl in H by discriminate; discriminate.
  - intros ->. reflexivity.
Qed.

Lemma is_nan_eq (x : float) : is_nan x = true -> x = nan.
Proof.
  intros H. apply Prim2SF_inj. apply is_nan_spec in H. rewrite H. reflexivity.
Qed.

Lemma add_nan_l (x : float) : nan + x = nan.
Proof.
  apply Prim2SF_inj. rewrite FloatAxioms.add_spec. reflexivity.
Qed.

Lemma add_nan_r (x : float) : x + nan = nan.
Proof.
  apply Prim2SF_inj. rewrite FloatAxioms.add_spec.
  change (Prim2SF nan) with S754_nan.
  destruct (Prim2SF x); reflexivity.
Qed.

Lemma mul_nan_l (x : float) : nan * x = nan.
Proof.
  apply Prim2SF_inj. rewrite FloatAxioms.mul_spec. reflexivity.
Qed.

Lemma ltb_nan_l (x : float) : (nan <? x) = false.
Proof. rewrite FloatAxioms.ltb_spec. reflexivity. Qed.

Lemma ltb_nan_r (x : float) : (x <? nan) = false.
Proof.
  rewrite FloatAxioms.ltb_spec. change (Prim2SF nan) with S754_nan.
  unfold SFltb. destruct (Prim2SF x); reflexivity.
Qed.

Lemma leb_nan_r (x : float) : (x <=? nan) = false.
Proof.
  rewrite FloatAxioms.leb_spec. change (Prim2SF nan) with S754_nan.
  unfold SFleb. destruct (Prim2SF x); reflexivity.
Qed.

Lemma leb_nan_l (x : float) : (nan <=? x) = false.
Proof. rewrite FloatAxioms.leb_spec. reflexivity. Qed.

(** NaN is not finite: [R_FINITE] fails on it. *)
Lemma nan_not_finite (x : float) : is_nan x = true -> is_finite x = false.
Proof. unfold is_finite. intros ->. reflexivity. Qed.

(** Adding [0] on the left keeps a number, except that [-0] becomes [0]. *)
Lemma add_zero_l (x : float) :
  Prim2SF (0 + x) =
  match Prim2SF x with
  | S754_zero _ => S754_zero false
  | y => y
  end.
Proof.
  rewrite FloatAxioms.add_spec. change (Prim2SF 0) with (S754_zero false).
  destruct (Prim2SF x) as [s|s| |s m e]; try reflexivity.
  destruct s; reflexivity.
Qed.

(** A number above a positive constant is not zero. *)
Lemma ltb_pos_neq_zero (c x : float) :
  (0 <? c) = true -> (c <? x) = true -> (x =? 0) = false.
Proof.
  rewrite !FloatAxioms.ltb_spec, FloatAxioms.eqb_spec. change (Prim2SF 0) with (S754_zero false).
  unfold SFltb, SFeqb.
  destruct (Prim2SF c) as [sc|sc| |sc mc ec], (Prim2SF x) as [sx|sx| |sx mx ex];
    simpl; try congruence;
    try (destruct sc; simpl; congruence);
    try (destruct sx; simpl; congruence);
    try (destruct sc, sx; simpl; congruence).
Qed.

End FloatFacts.

(** ** Fuel: a loop that has finished keeps its result with more fuel *)

Arguments csignrank : simpl never.
Arguments w_init_maybe : simpl never.

Lemma csignrank_inner_fuel (fuel : nat) : forall j i a a' m,
  csignrank_inner fuel j i a = Some a' ->
  csignrank_inner (fuel + m) j i a = Some a'.
Proof.
  induction fuel as [|fuel IH]; simpl; intros j i a a' m H.
  - discriminate.
  - destruct (j <=? i); [apply IH|]; assumption.
Qed.

Lemma csignrank_outer_fuel (fuel : nat) : forall inner n c j a a' m m',
  csignrank_outer fuel inner n c j a = Some a' ->
  csignrank_outer (fuel + m) (inner + m') n c j a = Some a'.
Proof.
  induction fuel as [|fuel IH]; simpl; intros inner n c j a a' m m' H.
  - discriminate.
  - destruct (j <? n + 1); [|assumption].
    destruct (csignrank_inner inner j _ a) as [a1|] eqn:E; [|discriminate].
    rewrite (csignrank_inner_fuel _ _ _ _ _ m' E). apply IH. assumption.
Qed.

Lemma csignrank_fuel (fuel m : nat) (k n : float) (s : state) :
  csignrank fuel k n s <> Timeout ->
  csignrank (fuel + m) k n s = csignrank fuel k n s.
Proof.
  unfold csignrank; cbv zeta.
  destruct ((k <? 0) || (n * (n + 1) / 2 <? k)); [reflexivity|].
  destruct (n =? 1); [reflexivity|].
  destruct (w s) as [a|]; [|reflexivity].
  destruct (JS.strict_eq (JS.get a 0) 1); [reflexivity|].
  destruct (csignrank_outer fuel fuel _ _ _ _) as [a'|] eqn:E; [|congruence].
  intros _. rewrite (csignrank_outer_fuel _ _ _ _ _ _ _ m m E). reflexivity.
Qed.

Section SignrankFuel.
Context {C : Collaborators}.

Lemma psignrank_loop_fuel (fuel : nat) : forall m strict x nn f i p s,
  psignrank_loop fuel strict x nn f i p s <> Timeout ->
  psignrank_loop (fuel + m) strict x nn f i p s
  = psignrank_loop fuel strict x nn f i p s.
Proof.
  induction fuel as [|fuel IH]; intros m strict x nn f i p s H.
  - simpl in H. congruence.
  - change (S fuel + m)%nat with (S (fuel + m)). simpl in H |- *.
    destruct (if strict then i <? x else i <=? x); [|reflexivity].
    change (S (fuel + m)) with (S fuel + m)%nat.
    destruct (csignrank (S fuel) i nn s) as [v s'| |] eqn:E.
    + rewrite csignrank_fuel, E by (rewrite E; discriminate).
      simpl in H |- *. apply IH. assumption.
    + rewrite csignrank_fuel, E by (rewrite E; discriminate). reflexivity.
    + simpl in H. congruence.
Qed.

Lemma psignrank_fuel (fuel m : nat) x n lower_tail log_p s :
  psignrank fuel x n lower_tail log_p s <> Timeout ->
  psignrank (fuel + m) x n lower_tail log_p s
  = psignrank fuel x n lower_tail log_p s.
Proof.
  unfold psignrank, expression_statement; cbv zeta.
  destruct (ISNAN x || ISNAN n); [reflexivity|].
  destruct (R_forceint (x + 1e-7) <? 0); [reflexivity|].
  destruct (_ <=? R_forceint (x + 1e-7)); [reflexivity|].
  destruct (w_init_maybe (trunc (R_forceint n)) s) as [[] s1| |]; simpl;
    try reflexivity.
  destruct (R_forceint (x + 1e-7) <=? _).
  - destruct (psignrank_loop fuel false _ _ _ _ _ s1) eqn:E; intros H;
      try (simpl in H; congruence);
      rewrite psignrank_loop_fuel, E by (rewrite E; discriminate); reflexivity.
  - destruct (psignrank_loop fuel true _ _ _ _ _ s1) eqn:E; intros H;
      try (simpl in H; congruence);
      rewrite psignrank_loop_fuel, E by (rewrite E; discriminate); reflexivity.
Qed.
End SignrankFuel.

(** ** The coefficient table for [n = 4] *)

Lemma w_init_maybe_4 (s : state) : w_init_maybe 4 s = Return tt (fresh4 s).
Proof. reflexivity. Qed.

Lemma csignrank_build4 (s : state) (m : nat) (k : float) :
  (k <? 0) || (4 * (4 + 1) / 2 <? k) = false ->
  csignrank (4 + m) k 4 (fresh4 s)
  = Return (JS.get table4 (if 4 * (4 + 1) / 2 / 2 <? k then 4 * (4 + 1) / 2 - k else k))
           (built4 s).
Proof.
  intros Hk. rewrite csignrank_fuel.
  - unfold csignrank; cbv zeta. rewrite Hk. reflexivity.
  - unfold csignrank; cbv zeta. rewrite Hk. discriminate.
Qed.

(** Once the table is there, every lookup returns without touching the
    state, whatever [k] is. *)
Lemma csignrank_built4 (s : state) (fuel : nat) (k : float) :
  exists v, csignrank fuel k 4 (built4 s) = Return v (built4 s).
Proof.
  unfold csignrank; cbv zeta.
  destruct ((k <? 0) || (4 * (4 + 1) / 2 <? k)); [eexists; reflexivity|].
  change (4 =? 1) with false. cbv iota.
  change (w (built4 s)) with (Some table4). cbv iota.
  change (JS.strict_eq (JS.get table4 0) 1) with true. cbv iota.
  eexists; reflexivity.
Qed.

(** C1. After [w_init_maybe(4)], [csignrank(0,4)] and [csignrank(10,4)]
    return 1, but [csignrank(5,4)] returns NaN rather than the count 2:
    the table is allocated with holes, and [w[i] += w[i - j]] adds
    [undefined] to a number. *)
Theorem csignrank_4_values (s : state) (m : nat) :
  w_init_maybe 4 s = Return tt (fresh4 s) /\
  value_of (csignrank (4 + m) 0 4 (fresh4 s)) = Some (Some 1) /\
  value_of (csignrank (4 + m) 10 4 (fresh4 s)) = Some (Some 1) /\
  value_of (csignrank (4 + m) 5 4 (fresh4 s)) = Some (Some nan) /\
  value_of (csignrank (4 + m) 5 4 (built4 s)) = Some (Some nan).
Proof.
  split; [reflexivity|].
  rewrite !csignrank_build4 by reflexivity.
  repeat split.
Qed.

(** ** [w_init_maybe] *)

(** For [n = 1 .. 400] the call succeeds exactly when [u = n(n+1)/2] is
    even, and then the length is [u/2 + 1]. *)
Lemma w_init_maybe_upto_400 :
  forallb (fun k =>
             let n := Z.of_nat k in
             let u := (n * (n + 1) / 2)%Z in
             match w_init_length n with
             | Some l => Z.even u && (l =? u / 2 + 1)%Z
             | None => Z.odd u
             end) (seq 1 400) = true.
Proof. vm_compute. reflexivity. Qed.

(** C2. For [n = 1] and [n = 2] the half-sum [u/2] is fractional
    ([c + 1] is 1.5 and 2.5), and [new Array(c + 1)] throws a RangeError:
    [w_init_maybe] does not complete and leaves no table. *)
Theorem w_init_maybe_throws_for_odd_u (s : state) :
  w_init_maybe 1 s = Throws JS.RangeError /\
  w_init_maybe 2 s = Throws JS.RangeError.
Proof. split; reflexivity. Qed.

(** C3. With the table built for [n = 4] and [allocated_n = 4], a
    further call [w_init_maybe(4)] does not leave [w] unchanged: it
    replaces the built table by a newly allocated one.  [allocated_n] is
    recorded on every call but never compared with the requested [n]. *)
Lemma w_init_maybe_same_n_resets_table :
  state_of (bind (w_init_maybe 4 initial_state) (fun _ s => csignrank 4 5 4 s))
  = Some (built4 initial_state) /\
  allocated_n (built4 initial_state) = Some 4 /\
  exists s', w_init_maybe 4 (built4 initial_state) = Return tt s' /\
             w s' <> w (built4 initial_state).
Proof.
  split; [reflexivity|]. split; [reflexivity|].
  exists (fresh4 initial_state). split; [reflexivity|].
  simpl. intros H. discriminate H.
Qed.

(** ** [psignrank] and [qsignrank] *)

Section SignrankProperties.
Context {C : Collaborators}.

(** With fewer than four units of fuel the build does not finish. *)
Lemma csignrank_fresh4_zero (s : state) (fuel : nat) :
  csignrank fuel 0 4 (fresh4 s) = Timeout \/
  csignrank fuel 0 4 (fresh4 s) = Return (Some 1) (built4 s).
Proof.
  destruct fuel as [|[|[|[|m]]]]; try (left; reflexivity).
  right. apply (csignrank_build4 s m 0). reflexivity.
Qed.

(** Once the running sum is NaN the lower scan cannot leave its loop. *)
Lemma qsignrank_scan_low_nan (fuel : nat) : forall x f q s,
  qsignrank_scan_low fuel x 4 f nan q (built4 s) = Timeout.
Proof.
  induction fuel as [|fuel IH]; intros x f q s; [reflexivity|].
  simpl. destruct (csignrank_built4 s (S fuel) q) as [v ->]. simpl.
  rewrite FloatFacts.add_nan_l, FloatFacts.leb_nan_r. apply IH.
Qed.

Lemma qsignrank_4_half (fuel : nat) (s : state) :
  qsignrank fuel 0.5 4 true false s
  = qsignrank_scan_low fuel (0.5 - 10 * DBL_EPSILON) 4 (exp (- 4 * M_LN2))
      0 0 (fresh4 s).
Proof. reflexivity. Qed.

(** C4. [qsignrank(0.5, 4, true, false)] never returns: the third
    term of the scan is [csignrank(2,4) = NaN], the running sum becomes
    NaN, and [p >= x] is false from then on.  The two hypotheses say
    that the first two partial sums, [f] and [f + f] with
    [f = exp(-4 ln 2)], are still below the target. *)
Theorem qsignrank_4_scan_diverges (s : state) :
  (0.5 - 10 * DBL_EPSILON <=? 0 + 1 * exp (- 4 * M_LN2)) = false ->
  (0.5 - 10 * DBL_EPSILON <=? 0 + 1 * exp (- 4 * M_LN2) + 1 * exp (- 4 * M_LN2))
  = false ->
  forall fuel, qsignrank fuel 0.5 4 true false s = Timeout.
Proof.
  intros H1 H2 fuel. rewrite qsignrank_4_half.
  destruct fuel as [|fuel]; [reflexivity|].
  cbn [qsignrank_scan_low].
  destruct (csignrank_fresh4_zero s (S fuel)) as [-> | ->]; [reflexivity|].
  cbn [bind JS.ToNumber]. rewrite H1.
  destruct fuel as [|fuel]; [reflexivity|].
  cbn [qsignrank_scan_low].
  change (csignrank (S fuel) (0 + 1) 4 (built4 s))
    with (Return (Some 1) (built4 s)).
  cbn [bind JS.ToNumber]. rewrite H2.
  destruct fuel as [|fuel]; [reflexivity|].
  cbn [qsignrank_scan_low].
  change (csignrank (S fuel) (0 + 1 + 1) 4 (built4 s))
    with (Return (Some nan) (built4 s)).
  cbn [bind JS.ToNumber].
  rewrite FloatFacts.mul_nan_l, FloatFacts.add_nan_r, FloatFacts.leb_nan_r.
  apply qsignrank_scan_low_nan.
Qed.

(** For [n = 1] the call does not reach the scan: building the table throws. *)
Lemma qsignrank_1_throws (fuel : nat) (s : state) :
  qsignrank fuel 0.5 1 true false s = Throws JS.RangeError.
Proof. reflexivity. Qed.

(** C5. [psignrank(., 4, true, false)] is not non-decreasing: at
    [x = 1] it returns the sum of two terms, at [x = 2] it returns NaN,
    and no number is [<=] NaN.  For [n = 1] it throws instead of
    returning. *)
Theorem psignrank_4_not_monotone (s : state) (m : nat) :
  value_of (psignrank (4 + m) 1 4 true false s)
  = Some (0 + 1 * exp (- 4 * M_LN2) + 1 * exp (- 4 * M_LN2)) /\
  value_of (psignrank (4 + m) 2 4 true false s) = Some nan /\
  (0 + 1 * exp (- 4 * M_LN2) + 1 * exp (- 4 * M_LN2) <=? nan) = false /\
  psignrank (4 + m) 0 1 true false s = Throws JS.RangeError.
Proof.
  assert (E1 : psignrank 4 1 4 true false s
               = Return (0 + 1 * exp (- 4 * M_LN2) + 1 * exp (- 4 * M_LN2))
                        (built4 s)) by reflexivity.
  assert (E2 : psignrank 4 2 4 true false s
               = Return (0 + 1 * exp (- 4 * M_LN2) + 1 * exp (- 4 * M_LN2)
                         + nan * exp (- 4 * M_LN2))
                        (built4 s)) by reflexivity.
  rewrite FloatFacts.mul_nan_l, FloatFacts.add_nan_r in E2.
  rewrite !psignrank_fuel by (rewrite ?E1, ?E2; discriminate).
  rewrite E1, E2. repeat split. apply FloatFacts.leb_nan_r.
Qed.

(** The two boundary values of C5 do hold, for [n = 4]. *)
Lemma psignrank_4_boundaries (fuel : nat) (s : state) :
  psignrank fuel (-1) 4 true false s = Return 0 s /\
  psignrank fuel 10 4 true false s = Return 1 s.
Proof. split; reflexivity. Qed.

(** C8. When [x] rounds below zero, [psignrank] returns the
    0-probability boundary value for every [n] that is not NaN, also
    for a non-finite or non-positive one: the two lines
    [ML_ERR_return_NAN;] neither report nor return.  The state, with
    its diagnostics, is unchanged. *)
Theorem psignrank_ignores_invalid_n (fuel : nat) (x n : float)
    (lower_tail log_p : bool) (s : state) :
  ISNAN x = false -> ISNAN n = false ->
  (R_forceint (x + 1e-7) <? 0) = true ->
  psignrank fuel x n lower_tail log_p s = Return (R_DT_0 lower_tail log_p) s.
Proof.
  intros Hx Hn Hneg. unfold psignrank, expression_statement; cbv zeta.
  rewrite Hx, Hn, Hneg. reflexivity.
Qed.

(** Without the rejection, [n = 0] and [n = -1] also reach the upper boundary. *)
Lemma psignrank_nonpositive_n_returns_one (fuel : nat) (s : state) :
  psignrank fuel 0 0 true false s = Return 1 s /\
  psignrank fuel 0 (-1) true false s = Return 1 s.
Proof. split; reflexivity. Qed.

End SignrankProperties.

Lemma qsignrank_4_scan_diverges_witness :
  (0.5 - 10 * DBL_EPSILON <=? 0 + 1 * 0.0625) = false /\
  (0.5 - 10 * DBL_EPSILON <=? 0 + 1 * 0.0625 + 1 * 0.0625) = false /\
  forall fuel,
    @qsignrank sample_collaborators fuel 0.5 4 true false initial_state = Timeout.
Proof.
  split; [reflexivity|]. split; [reflexivity|].
  apply (@qsignrank_4_scan_diverges sample_collaborators initial_state);
    reflexivity.
Defined.

Lemma psignrank_ignores_invalid_n_witness :
  @psignrank sample_collaborators 0 (-1) 0 true false initial_state
  = Return 0 initial_state /\
  @psignrank sample_collaborators 0 (-1) infinity true false initial_state
  = Return 0 initial_state /\
  @psignrank sample_collaborators 0 (-1) (-3) true false initial_state
  = Return 0 initial_state.
Proof.
  split; [|split];
    apply (@psignrank_ignores_invalid_n sample_collaborators); reflexivity.
Defined.

(** ** [pbinom] *)

Section PbinomProperties.
Context {C : Collaborators}.

(** C9. For finite [n] and [p] and a number [x], [pbinom] returns a
    boundary value or the value of [pbeta]: integrality and sign of
    [n] and the range of [p] are tested, but the lines
    [ML_ERR_return_NAN;] neither report a domain error nor return. *)
Theorem pbinom_never_rejects (x n p : float) (lower_tail log_p : bool) :
  ISNAN x = false -> ISNAN n = false -> ISNAN p = false ->
  R_FINITE n = true -> R_FINITE p = true ->
  snd (pbinom x n p lower_tail log_p)
  = (if x <? 0 then R_DT_0 lower_tail log_p
     else if R_forceint n <=? floor (x + 1e-7) then R_DT_1 lower_tail log_p
     else pbeta p (floor (x + 1e-7) + 1) (R_forceint n - floor (x + 1e-7))
                (negb lower_tail) log_p) /\
  ~ In (MLError ME_DOMAIN "") (fst (pbinom x n p lower_tail log_p)).
Proof.
  intros Hx Hn Hp Fn Fp. unfold pbinom, expression_statement; cbv zeta.
  rewrite Hx, Hn, Hp, Fn, Fp. cbn [orb negb].
  destruct (x <? 0); [|destruct (R_forceint n <=? floor (x + 1e-7))];
    (split; [reflexivity|]); cbn [fst];
    destruct (R_nonint n); cbn [In]; intros H;
    repeat (destruct H as [H|H]; [discriminate H|]); exact H.
Qed.

End PbinomProperties.

Lemma pbinom_never_rejects_witness :
  snd (@pbinom sample_collaborators (-1) 2.5 2 true false) = 0 /\
  snd (@pbinom sample_collaborators 3 (-1) 0.5 true false) = 1 /\
  snd (@pbinom sample_collaborators 0 2 2 true false)
  = @pbeta sample_collaborators 2 1 2 false false.
Proof.
  split; [|split];
    apply (@pbinom_never_rejects sample_collaborators); reflexivity.
Defined.

(** ** [pnt] *)

Section PntProperties.
Context {C : Collaborators}.

(** On a scalar, [pnt] is the scalar routine. *)
Lemma pnt_scalar (t df ncp : float) (lower_tail log_p : bool) :
  pnt (Scalar t) df ncp lower_tail log_p
  = Scalar (_pnt t df ncp lower_tail log_p).
Proof. reflexivity. Qed.

(** Where a NaN [t] ends up: [_pnt] has no [ISNAN] test, so after the
    [df <= 0] and [ncp == 0] tests a NaN falls into the branch written
    for an infinite [t], on its non-negative side. *)
Lemma pnt_nan_t (t df ncp : float) (lower_tail log_p : bool) :
  ISNAN t = true ->
  _pnt t df ncp lower_tail log_p
  = (if df <=? 0 then ML_ERR_return_NAN tt
     else if ncp =? 0 then ([], pt t df lower_tail log_p)
     else ([], R_DT_1 lower_tail log_p)).
Proof.
  intros Ht. unfold _pnt.
  destruct (df <=? 0); [reflexivity|].
  destruct (ncp =? 0); [reflexivity|].
  unfold R_FINITE. rewrite (FloatFacts.nan_not_finite t Ht). cbn [negb].
  rewrite (FloatFacts.is_nan_eq t Ht), FloatFacts.ltb_nan_l. reflexivity.
Qed.

(** C7, amended. For finite [t < 0], [df > 0] and [ncp > 40] the
    shortcut is taken exactly when the request is not a lower tail on
    the log scale. *)
Theorem pnt_shortcut_iff (t df ncp : float) (lower_tail log_p : bool) :
  R_FINITE t = true -> (t <? 0) = true -> (0 <? df) = true ->
  (40 <? ncp) = true ->
  _pnt t df ncp lower_tail log_p = shortcut_result lower_tail log_p
  <-> ~ (lower_tail = true /\ log_p = true).
Proof.
  intros Ft Ht Hdf Hncp. unfold _pnt, shortcut_result.
  rewrite (FloatFacts.ltb_leb_false 0 df Hdf).
  rewrite (FloatFacts.ltb_pos_neq_zero 40 ncp eq_refl Hncp).
  rewrite Ft, Ht, Hncp. cbn [negb andb]. cbv zeta.
  destruct lower_tail, log_p; cbn [negb orb];
    try (split; [intros _ [H1 H2]; discriminate | reflexivity]).
  split; [|intros H; exfalso; apply H; split; reflexivity].
  intros H. exfalso. revert H.
  unfold pnt_finis, msg_shortcut, msg_asymptotic, msg_series.
  repeat match goal with
         | |- context [pnt_series ?n ?i ?x ?b ?l ?v] =>
             destruct (pnt_series n i x b l v) as [[? ?] ?]
         | |- (if ?b then _ else _) = _ -> False => destruct b
         end;
    intros H; cbn [app] in H; discriminate H.
Qed.

End PntProperties.

(** C6. [pnt(NaN, 1, 1, true, false)] does not return NaN: it returns
    1, a number, whatever the collaborators are.  [!R_FINITE(NaN)] sends
    the NaN into the branch meant for [+Infinity] and [-Infinity], where
    [NaN < 0] is false. *)
Lemma pnt_nan_t_returns_one :
  (forall C : Collaborators, @_pnt C nan 1 1 true false = ([], 1)) /\
  ISNAN 1 = false.
Proof. split; [intros C|]; reflexivity. Qed.

Lemma pnt_nan_t_witness :
  @_pnt sample_collaborators nan 1 1 false false = ([], 0) /\
  @_pnt sample_collaborators nan 1 0 true false = ([], 0.5) /\
  @_pnt sample_collaborators nan (-1) 1 true false = ([MLError ME_DOMAIN ""], nan).
Proof.
  split; [|split];
    exact (@pnt_nan_t sample_collaborators nan _ _ _ _ eq_refl).
Defined.

(** C7, as stated, fails in both directions: a lower-tail request in
    linear space takes the shortcut, and a lower-tail request on the log
    scale, which the claim sends through the shortcut, does not. *)
Lemma pnt_shortcut_linear_lower_tail :
  (forall C : Collaborators,
      @_pnt C (-1) 1 41 true false = shortcut_result true false) /\
  (forall C : Collaborators,
      @_pnt C (-1) 1 41 true true
      = ([Debug msg_asymptotic],
         pnorm (fabs (-1) * (1 - 1 / (4 * 1))) (- 41)
               (sqrt (1 + fabs (-1) * fabs (-1) * 2 * (1 / (4 * 1)))) false true)).
Proof. split; intros C; reflexivity. Qed.

Lemma pnt_shortcut_iff_witness :
  (@_pnt sample_collaborators (-1) 1 41 false true = shortcut_result false true
   <-> ~ (false = true /\ true = true)) /\
  (@_pnt sample_collaborators (-1) 1 41 true true = shortcut_result true true
   <-> ~ (true = true /\ true = true)).
Proof.
  split; apply (@pnt_shortcut_iff sample_collaborators); reflexivity.
Defined.

Section PntAtZero.
Context {C : Collaborators}.

(** [x = t^2 / (t^2 + df)] is [0] at [t = 0], so [x > 0] fails. *)
Lemma pnt_x_at_zero (df : float) :
  (0 <? df) = true -> (0 <? 0 * 0 / (0 * 0 + df)) = false.
Proof.
  intros Hdf. change (0 * 0) with 0.
  rewrite FloatAxioms.ltb_spec in Hdf |- *.
  rewrite FloatAxioms.div_spec, FloatFacts.add_zero_l.
  change (Prim2SF 0) with (S754_zero false) in *.
  destruct (Prim2SF df) as [s|s| |s m e]; try discriminate Hdf;
    destruct s; try discriminate Hdf; reflexivity.
Qed.

Lemma add_zero_l_leb_one (p : float) : (p <=? 1) = true -> (0 + p <=? 1) = true.
Proof.
  rewrite !FloatAxioms.leb_spec, FloatFacts.add_zero_l.
  destruct (Prim2SF p) as [s|s| |s m e]; auto.
Qed.

Lemma add_zero_l_eqb (p : float) : (p <=? 1) = true -> (0 + p =? p) = true.
Proof.
  rewrite FloatAxioms.leb_spec, FloatAxioms.eqb_spec, FloatFacts.add_zero_l.
  unfold SFeqb.
  destruct (Prim2SF p) as [s|s| |s m e] eqn:E; intros H.
  - reflexivity.
  - rewrite FloatFacts.SFcompare_refl by discriminate. reflexivity.
  - discriminate H.
  - rewrite FloatFacts.SFcompare_refl by discriminate. reflexivity.
Qed.

(** The clamp [Math.min(tnc, 1)] keeps a value that is at most 1. *)
Lemma fmin2_le_one (q : float) : (q <=? 1) = true -> fmin2 q 1 = q.
Proof.
  intros H. unfold fmin2, ISNAN.
  assert (Hn : is_nan q = false).
  { destruct (is_nan q) eqn:E; [|reflexivity].
    rewrite (FloatFacts.is_nan_eq q E), FloatFacts.leb_nan_l in H.
    discriminate H. }
  rewrite Hn. change (is_nan 1) with false. cbn [orb].
  rewrite (FloatFacts.leb_ltb_false q 1 H).
  destruct (q <? 1) eqn:L; [reflexivity|].
  assert (Z : (q =? 0) = false); [|rewrite Z; reflexivity].
  revert H L. rewrite FloatAxioms.leb_spec, FloatAxioms.ltb_spec, FloatAxioms.eqb_spec.
  change (Prim2SF 1) with (S754_finite false 4503599627370496 (-52)).
  change (Prim2SF 0) with (S754_zero false).
  destruct (Prim2SF q) as [s|s| |s m e]; intros H L.
  - discriminate L.
  - destruct s; reflexivity.
  - discriminate H.
  - destruct s; reflexivity.
Qed.

(** C10. At [t = 0], for [0 < df <= 4e5] and a nonzero [ncp] with
    [ncp^2 <= 2 ln2 1021], the series block is skipped and [_pnt]
    returns [0 + pnorm(-ncp, 0, 1, true, false)] unchanged by the
    clamp, which is strictly equal ([===]) to the value of [pnorm];
    that value is taken to be at most 1, as a probability is. *)
Theorem pnt_at_zero (df ncp : float) :
  (0 <? df) = true -> (df <=? 4e5) = true -> (ncp =? 0) = false ->
  (ncp * ncp <=? 2 * M_LN2 * - DBL_MIN_EXP) = true ->
  (pnorm (- ncp) 0 1 true false <=? 1) = true ->
  (snd (_pnt 0 df ncp true false) =? pnorm (- ncp) 0 1 true false) = true /\
  snd (_pnt 0 df ncp true false) = 0 + pnorm (- ncp) 0 1 true false /\
  ~ In (Debug "x > 0 branch") (fst (_pnt 0 df ncp true false)).
Proof.
  intros Hdf Hdf' Hncp Hsq Hp.
  assert (E : _pnt 0 df ncp true false
              = pnt_finis [Debug msg_series] 0 ncp false true false).
  { unfold _pnt.
    rewrite (FloatFacts.ltb_leb_false 0 df Hdf), Hncp.
    change (R_FINITE 0) with true. change (0 <? 0) with false.
    change (0 <=? 0) with true. cbn [negb andb]. cbv zeta.
    rewrite (FloatFacts.leb_ltb_false df 4e5 Hdf').
    rewrite (FloatFacts.leb_ltb_false _ _ Hsq). cbn [orb].
    rewrite (pnt_x_at_zero df Hdf). reflexivity. }
  rewrite E. unfold pnt_finis, R_DT_val. cbn [xorb snd fst].
  rewrite (fmin2_le_one _ (add_zero_l_leb_one _ Hp)).
  split; [apply add_zero_l_eqb; exact Hp|].
  split; [reflexivity|].
  destruct ((1 - 1e-10 <? _) && true); cbn [app In]; intros H;
    repeat (destruct H as [H|H]; [discriminate H|]); exact H.
Qed.

End PntAtZero.

Lemma pnt_at_zero_witness :
  (@snd (list diag) float (@_pnt sample_collaborators 0 1 1 true false)
   =? @pnorm sample_collaborators (- 1) 0 1 true false) = true /\
  snd (@_pnt sample_collaborators 0 1 1 true false)
  = 0 + @pnorm sample_collaborators (- 1) 0 1 true false /\
  ~ In (Debug "x > 0 branch") (fst (@_pnt sample_collaborators 0 1 1 true false)).
Proof.
  apply (@pnt_at_zero sample_collaborators 1 1); reflexivity.
Defined.

(** * Further properties of the code *)

(** ** NaN and invalid arguments *)

Lemma add_nan_any (x y : float) : ISNAN x || ISNAN y = true -> x + y = nan.
Proof.
  unfold ISNAN. intros H. apply orb_true_iff in H. destruct H as [H|H];
    rewrite (FloatFacts.is_nan_eq _ H).
  - apply FloatFacts.add_nan_l.
  - apply FloatFacts.add_nan_r.
Qed.

Section InvalidArguments.
Context {C : Collaborators}.

(** X1. A NaN in [x] or [n] comes back as NaN from [dsignrank],
    [psignrank] and [qsignrank]; nothing is reported and no table is
    allocated. *)
Theorem signrank_nan_propagation (fuel : nat) (x n : float)
    (lower_tail log_p : bool) (s : state) :
  ISNAN x || ISNAN n = true ->
  dsignrank fuel x n log_p s = Return nan s /\
  psignrank fuel x n lower_tail log_p s = Return nan s /\
  qsignrank fuel x n lower_tail log_p s = Return nan s.
Proof.
  intros H. unfold dsignrank, psignrank, qsignrank.
  rewrite H, (add_nan_any x n H). repeat split.
Qed.

(** X2. [qsignrank] answers NaN, and leaves the table and
    [allocated_n] alone, when [x] or [n] is infinite or [x] is not a
    legal probability. *)
Theorem qsignrank_rejects (fuel : nat) (x n : float)
    (lower_tail log_p : bool) (s : state) :
  ISNAN x || ISNAN n = false ->
  R_FINITE x && R_FINITE n = false \/ R_Q_P01_check log_p x <> None ->
  exists s', qsignrank fuel x n lower_tail log_p s = Return nan s' /\
             w s' = w s /\ allocated_n s' = allocated_n s.
Proof.
  intros Hn H. unfold qsignrank. rewrite Hn.
  destruct (R_FINITE x && R_FINITE n) eqn:F.
  - destruct H as [H|H]; [discriminate H|].
    apply andb_true_iff in F. destruct F as [-> ->]. cbn [negb orb].
    revert H. unfold R_Q_P01_check.
    destruct ((log_p && (0 <? x)) || (negb log_p && ((x <? 0) || (1 <? x))));
      intros H; [|congruence].
    exists s. repeat split.
  - replace (negb (R_FINITE x) || negb (R_FINITE n)) with true
      by (destruct (R_FINITE x), (R_FINITE n); simpl in *; congruence).
    eexists. unfold return_ML_ERR_NAN. cbn. repeat split.
Qed.

(** X3. [dsignrank] rejects an [n] that rounds to zero or below with
    NaN and a reported domain error, and gives the zero density for an
    [x] that is not an integer or lies outside [0, n(n+1)/2]; in both
    cases the table and [allocated_n] are untouched. *)
Theorem dsignrank_off_support (fuel : nat) (x n : float) (give_log : bool)
    (s : state) :
  ISNAN x || ISNAN n = false ->
  (R_forceint n <=? 0)
  || (1e-7 <? fabs (x - R_forceint x))
  || (R_forceint x <? 0)
  || (R_forceint n * (R_forceint n + 1) / 2 <? R_forceint x) = true ->
  exists s', dsignrank fuel x n give_log s
             = Return (if R_forceint n <=? 0 then nan else R_D__0 give_log) s' /\
             w s' = w s /\ allocated_n s' = allocated_n s /\
             diags s' = diags s ++ (if R_forceint n <=? 0
                                    then [MLError ME_DOMAIN ""] else []).
Proof.
  intros Hn H. unfold dsignrank; cbv zeta. rewrite Hn.
  destruct (R_forceint n <=? 0).
  - eexists. unfold return_ML_ERR_NAN. cbn. repeat split.
  - cbn [orb] in H. rewrite app_nil_r.
    destruct (1e-7 <? fabs (x - R_forceint x)); [exists s; repeat split|].
    cbn [orb] in H. rewrite H. exists s; repeat split.
Qed.

(** X4. [pbinom] answers NaN when one of [x], [n], [p] is NaN or when
    [n] or [p] is infinite. *)
Theorem pbinom_nan_or_infinite (x n p : float) (lower_tail log_p : bool) :
  ISNAN x || ISNAN n || ISNAN p || negb (R_FINITE n) || negb (R_FINITE p) = true ->
  ISNAN (snd (pbinom x n p lower_tail log_p)) = true.
Proof.
  intros H. unfold pbinom.
  destruct (ISNAN x || ISNAN n || ISNAN p) eqn:N.
  - cbn [snd]. apply orb_true_iff in N. destruct N as [N|N].
    + rewrite (add_nan_any x n N), FloatFacts.add_nan_l. reflexivity.
    + unfold ISNAN in N. rewrite (FloatFacts.is_nan_eq p N), FloatFacts.add_nan_r.
      reflexivity.
  - cbn [orb] in H. rewrite H. reflexivity.
Qed.

(** X5. The degenerate cases of [_pnt] when the test [df <= 0] fails:
    a zero [ncp0] (of either sign) hands the call to [pt], whatever [t]
    is, and with a non-zero [ncp] an infinite [t] gives the boundary
    value of its side. *)
Theorem pnt_degenerate_cases (t df ncp0 ncp : float) (lower_tail log_p : bool) :
  (df <=? 0) = false -> (ncp0 =? 0) = true -> (ncp =? 0) = false ->
  _pnt t df ncp0 lower_tail log_p = ([], pt t df lower_tail log_p) /\
  _pnt infinity df ncp lower_tail log_p = ([], R_DT_1 lower_tail log_p) /\
  _pnt neg_infinity df ncp lower_tail log_p = ([], R_DT_0 lower_tail log_p).
Proof.
  intros Hdf H0 H1. unfold _pnt. rewrite Hdf, H0, H1.
  split; [reflexivity|split; reflexivity].
Qed.

End InvalidArguments.

(** X6. [rsignrank] returns 0 and draws no random number when [n]
    rounds to zero or to a negative integer: a negative [n] is tested
    but not rejected. *)
Theorem rsignrank_nonpositive (fuel : nat) (unif : nat -> float) (pos : nat)
    (n : float) :
  ISNAN n = false ->
  (0 <? floor (R_forceint n)) = false ->
  rsignrank (S fuel) unif pos n = Some (0, pos).
Proof.
  intros Hn Hk. unfold rsignrank, expression_statement; cbv zeta.
  rewrite Hn. destruct (R_forceint n =? 0); [reflexivity|].
  cbn [rsignrank_loop]. rewrite Hk. reflexivity.
Qed.

Lemma signrank_nan_propagation_witness :
  @dsignrank sample_collaborators 0 nan 4 false initial_state
  = Return nan initial_state /\
  @psignrank sample_collaborators 0 nan 4 true false initial_state
  = Return nan initial_state /\
  @qsignrank sample_collaborators 0 0.5 nan true false initial_state
  = Return nan initial_state.
Proof.
  split; [|split].
  - apply (@signrank_nan_propagation sample_collaborators 0 nan 4 true false).
    reflexivity.
  - apply (@signrank_nan_propagation sample_collaborators 0 nan 4 true false).
    reflexivity.
  - apply (@signrank_nan_propagation sample_collaborators 0 0.5 nan true false).
    reflexivity.
Defined.

Lemma qsignrank_rejects_witness :
  (exists s', @qsignrank sample_collaborators 0 infinity 4 true false initial_state
              = Return nan s' /\
              w s' = w initial_state /\ allocated_n s' = allocated_n initial_state) /\
  (exists s', @qsignrank sample_collaborators 0 1.5 4 true false initial_state
              = Return nan s' /\
              w s' = w initial_state /\ allocated_n s' = allocated_n initial_state).
Proof.
  split.
  - apply (@qsignrank_rejects sample_collaborators); [reflexivity|].
    left; reflexivity.
  - apply (@qsignrank_rejects sample_collaborators); [reflexivity|].
    right; discriminate.
Defined.

Lemma dsignrank_off_support_witness :
  (exists s', @dsignrank sample_collaborators 0 0 (-2) false initial_state
              = Return nan s' /\
              w s' = w initial_state /\ allocated_n s' = allocated_n initial_state /\
              diags s' = diags initial_state ++ [MLError ME_DOMAIN ""]) /\
  (exists s', @dsignrank sample_collaborators 0 2.5 4 true initial_state
              = Return neg_infinity s' /\
              w s' = w initial_state /\ allocated_n s' = allocated_n initial_state /\
              diags s' = diags initial_state ++ []) /\
  (exists s', @dsignrank sample_collaborators 0 11 4 false initial_state
              = Return 0 s' /\
              w s' = w initial_state /\ allocated_n s' = allocated_n initial_state /\
              diags s' = diags initial_state ++ []).
Proof.
  split; [|split].
  - apply (@dsignrank_off_support sample_collaborators 0 0 (-2) false); reflexivity.
  - apply (@dsignrank_off_support sample_collaborators 0 2.5 4 true); reflexivity.
  - apply (@dsignrank_off_support sample_collaborators 0 11 4 false); reflexivity.
Defined.

Lemma pbinom_nan_or_infinite_witness :
  ISNAN (snd (@pbinom sample_collaborators 3 nan 0.5 true false)) = true /\
  ISNAN (snd (@pbinom sample_collaborators 3 10 infinity true false)) = true.
Proof.
  split; apply (@pbinom_nan_or_infinite sample_collaborators); reflexivity.
Defined.

Lemma pnt_degenerate_cases_witness :
  @_pnt sample_collaborators 2 3 (- 0) true false
  = ([], @pt sample_collaborators 2 3 true false) /\
  @_pnt sample_collaborators infinity 3 1 true false = ([], R_DT_1 true false) /\
  @_pnt sample_collaborators neg_infinity 3 1 true false = ([], R_DT_0 true false).
Proof.
  apply (@pnt_degenerate_cases sample_collaborators 2 3 (- 0) 1 true false);
    reflexivity.
Defined.

Lemma rsignrank_nonpositive_witness :
  rsignrank 1 (fun _ => 0.75) 0 (-3) = Some (0, 0%nat) /\
  rsignrank 1 (fun _ => 0.75) 0 0.2 = Some (0, 0%nat).
Proof.
  split; apply rsignrank_nonpositive; reflexivity.
Defined.

(** ** The cached table and the diagnostics *)

Lemma same_outcome_result {A} (o1 o2 : outcome A) :
  same_outcome o1 o2 -> result_of o1 = result_of o2.
Proof.
  destruct o1, o2; simpl; try contradiction; try reflexivity.
  - intros [-> _]. reflexivity.
  - intros ->. reflexivity.
Qed.

Lemma same_outcome_bind {A B} (m1 m2 : outcome A)
    (k : A -> state -> outcome B) :
  same_outcome m1 m2 ->
  (forall a s1 s2, w s1 = w s2 -> same_outcome (k a s1) (k a s2)) ->
  same_outcome (bind m1 k) (bind m2 k).
Proof.
  destruct m1, m2; simpl; try contradiction; auto.
  intros [-> Hw] Hk. apply Hk. exact Hw.
Qed.

Lemma w_init_maybe_same (n : float) (s1 s2 : state) :
  same_outcome (w_init_maybe n s1) (w_init_maybe n s2).
Proof.
  unfold w_init_maybe; cbv zeta.
  destruct (JS.new_Array (n * (n + 1) / 2 / 2 + 1)); simpl; auto.
Qed.

Lemma csignrank_same (fuel : nat) (k n : float) (s1 s2 : state) :
  w s1 = w s2 -> same_outcome (csignrank fuel k n s1) (csignrank fuel k n s2).
Proof.
  intros Hw. unfold csignrank; cbv zeta. rewrite <- Hw.
  destruct ((k <? 0) || (n * (n + 1) / 2 <? k)); [simpl; auto|].
  destruct (n =? 1); [simpl; auto|].
  destruct (w s1) as [a|] eqn:E; [|reflexivity].
  destruct (JS.strict_eq (JS.get a 0) 1); [simpl; split; congruence|].
  match goal with
  | |- context [csignrank_outer ?f1 ?f2 ?n' ?c ?j ?a'] =>
      destruct (csignrank_outer f1 f2 n' c j a')
  end; simpl; auto.
Qed.

Lemma keeps_diags_bind {A B} (s : state) (m : outcome A)
    (k : A -> state -> outcome B) :
  keeps_diags s m ->
  (forall a s', keeps_diags s' (k a s')) ->
  keeps_diags s (bind m k).
Proof.
  destruct m as [a s'| |]; simpl; auto.
  intros H Hk. specialize (Hk a s').
  destruct (k a s'); simpl in *; congruence.
Qed.

Lemma w_init_maybe_keeps_diags (n : float) (s : state) :
  keeps_diags s (w_init_maybe n s).
Proof.
  unfold w_init_maybe; cbv zeta.
  destruct (JS.new_Array (n * (n + 1) / 2 / 2 + 1)); reflexivity.
Qed.

Lemma csignrank_keeps_diags (fuel : nat) (k n : float) (s : state) :
  keeps_diags s (csignrank fuel k n s).
Proof.
  unfold csignrank; cbv zeta.
  destruct ((k <? 0) || (n * (n + 1) / 2 <? k)); [reflexivity|].
  destruct (n =? 1); [reflexivity|].
  destruct (w s) as [a|]; [|exact I].
  destruct (JS.strict_eq (JS.get a 0) 1); [reflexivity|].
  match goal with
  | |- context [csignrank_outer ?f1 ?f2 ?n' ?c ?j ?a'] =>
      destruct (csignrank_outer f1 f2 n' c j a')
  end; [reflexivity|exact I].
Qed.

Section CacheAndDiagnostics.
Context {C : Collaborators}.

Lemma psignrank_loop_same (fuel : nat) : forall strict x nn f i p s1 s2,
  w s1 = w s2 ->
  same_outcome (psignrank_loop fuel strict x nn f i p s1)
               (psignrank_loop fuel strict x nn f i p s2).
Proof.
  induction fuel as [|fuel IH]; intros strict x nn f i p s1 s2 Hw; simpl; auto.
  destruct (if strict then i <? x else i <=? x); [|simpl; auto].
  apply same_outcome_bind; [apply csignrank_same; exact Hw|].
  intros a t1 t2 Ht. apply IH. exact Ht.
Qed.

Lemma qsignrank_scan_low_same (fuel : nat) : forall x nn f p q s1 s2,
  w s1 = w s2 ->
  same_outcome (qsignrank_scan_low fuel x nn f p q s1)
               (qsignrank_scan_low fuel x nn f p q s2).
Proof.
  induction fuel as [|fuel IH]; intros x nn f p q s1 s2 Hw; simpl; auto.
  apply same_outcome_bind; [apply csignrank_same; exact Hw|].
  intros a t1 t2 Ht.
  destruct (x <=? p + JS.ToNumber a * f); [simpl; auto|apply IH; exact Ht].
Qed.

Lemma qsignrank_scan_high_same (fuel : nat) : forall x n nn f p q s1 s2,
  w s1 = w s2 ->
  same_outcome (qsignrank_scan_high fuel x n nn f p q s1)
               (qsignrank_scan_high fuel x n nn f p q s2).
Proof.
  induction fuel as [|fuel IH]; intros x n nn f p q s1 s2 Hw; simpl; auto.
  apply same_outcome_bind; [apply csignrank_same; exact Hw|].
  intros a t1 t2 Ht.
  destruct (x <? p + JS.ToNumber a * f); [simpl; auto|apply IH; exact Ht].
Qed.

(** X7. What [dsignrank], [psignrank] and [qsignrank] return (or
    throw, or whether they are still running) does not depend on the
    table and the [allocated_n] left by earlier calls: every entry point
    allocates its table anew before the first lookup. *)
Theorem entry_points_ignore_cache (fuel : nat) (x n : float)
    (lower_tail log_p : bool) (s1 s2 : state) :
  result_of (dsignrank fuel x n log_p s1)
  = result_of (dsignrank fuel x n log_p s2) /\
  result_of (psignrank fuel x n lower_tail log_p s1)
  = result_of (psignrank fuel x n lower_tail log_p s2) /\
  result_of (qsignrank fuel x n lower_tail log_p s1)
  = result_of (qsignrank fuel x n lower_tail log_p s2).
Proof.
  split; [|split].
  - unfold dsignrank; cbv zeta.
    destruct (ISNAN x || ISNAN n); [reflexivity|].
    destruct (R_forceint n <=? 0); [reflexivity|].
    destruct (1e-7 <? fabs (x - R_forceint x)); [reflexivity|].
    destruct ((R_forceint x <? 0) || _); [reflexivity|].
    apply same_outcome_result.
    apply same_outcome_bind; [apply w_init_maybe_same|].
    intros [] t1 t2 Ht.
    apply same_outcome_bind; [apply csignrank_same; exact Ht|].
    intros v u1 u2 Hu. simpl. auto.
  - unfold psignrank, expression_statement; cbv zeta.
    destruct (ISNAN x || ISNAN n); [reflexivity|].
    destruct (R_forceint (x + 1e-7) <? 0); [reflexivity|].
    destruct (_ <=? R_forceint (x + 1e-7)); [reflexivity|].
    apply same_outcome_result.
    apply same_outcome_bind; [apply w_init_maybe_same|].
    intros [] t1 t2 Ht.
    destruct (R_forceint (x + 1e-7) <=? _);
      (apply same_outcome_bind; [apply psignrank_loop_same; exact Ht|]);
      intros v u1 u2 Hu; simpl; auto.
  - unfold qsignrank, expression_statement; cbv zeta.
    destruct (ISNAN x || ISNAN n); [reflexivity|].
    destruct (negb (R_FINITE x) || negb (R_FINITE n)); [reflexivity|].
    destruct (R_Q_P01_check log_p x); [reflexivity|].
    destruct (x =? R_DT_0 lower_tail log_p); [reflexivity|].
    destruct (x =? R_DT_1 lower_tail log_p); [reflexivity|].
    apply same_outcome_result.
    apply same_outcome_bind; [apply w_init_maybe_same|].
    intros [] t1 t2 Ht.
    destruct (_ <=? 0.5);
      [apply qsignrank_scan_low_same|apply qsignrank_scan_high_same]; exact Ht.
Qed.

Lemma psignrank_loop_keeps_diags (fuel : nat) : forall strict x nn f i p s,
  keeps_diags s (psignrank_loop fuel strict x nn f i p s).
Proof.
  induction fuel as [|fuel IH]; intros strict x nn f i p s; simpl; auto.
  destruct (if strict then i <? x else i <=? x); [|reflexivity].
  apply keeps_diags_bind; [apply csignrank_keeps_diags|].
  intros a s'. apply IH.
Qed.

(** X8. [psignrank] never reports anything: whenever it returns, the
    diagnostics are those it was called with, whatever [x] and [n] are. *)
Theorem psignrank_never_reports (fuel : nat) (x n : float)
    (lower_tail log_p : bool) (s : state) :
  keeps_diags s (psignrank fuel x n lower_tail log_p s).
Proof.
  unfold psignrank, expression_statement; cbv zeta.
  destruct (ISNAN x || ISNAN n); [reflexivity|].
  destruct (R_forceint (x + 1e-7) <? 0); [reflexivity|].
  destruct (_ <=? R_forceint (x + 1e-7)); [reflexivity|].
  apply keeps_diags_bind; [apply w_init_maybe_keeps_diags|].
  intros [] s1.
  destruct (R_forceint (x + 1e-7) <=? _);
    (apply keeps_diags_bind; [apply psignrank_loop_keeps_diags|]);
    intros v s2; reflexivity.
Qed.

(** Once the running sum is NaN the upper scan cannot leave its loop either. *)
Lemma qsignrank_scan_high_nan (fuel : nat) : forall x n f q s,
  qsignrank_scan_high fuel x n 4 f nan q (built4 s) = Timeout.
Proof.
  induction fuel as [|fuel IH]; intros x n f q s; [reflexivity|].
  simpl. destruct (csignrank_built4 s (S fuel) q) as [v ->]. simpl.
  rewrite FloatFacts.add_nan_l, FloatFacts.ltb_nan_r. apply IH.
Qed.

Lemma qsignrank_scan_low_4_values (fuel : nat) (x f : float) (s s' : state)
    (v : float) :
  qsignrank_scan_low fuel x 4 f 0 0 (fresh4 s) = Return v s' -> v = 0 \/ v = 1.
Proof.
  destruct fuel as [|fuel]; [discriminate|].
  cbn [qsignrank_scan_low].
  destruct (csignrank_fresh4_zero s (S fuel)) as [-> | ->]; [discriminate|].
  cbn [bind JS.ToNumber].
  destruct (x <=? 0 + 1 * f); [intros H; injection H as <- _; left; reflexivity|].
  destruct fuel as [|fuel]; [discriminate|].
  cbn [qsignrank_scan_low].
  change (csignrank (S fuel) (0 + 1) 4 (built4 s))
    with (Return (Some 1) (built4 s)).
  cbn [bind JS.ToNumber].
  destruct (x <=? 0 + 1 * f + 1 * f);
    [intros H; injection H as <- _; right; reflexivity|].
  destruct fuel as [|fuel]; [discriminate|].
  cbn [qsignrank_scan_low].
  change (csignrank (S fuel) (0 + 1 + 1) 4 (built4 s))
    with (Return (Some nan) (built4 s)).
  cbn [bind JS.ToNumber].
  rewrite FloatFacts.mul_nan_l, FloatFacts.add_nan_r, FloatFacts.leb_nan_r.
  rewrite qsignrank_scan_low_nan. discriminate.
Qed.

Lemma qsignrank_scan_high_4_values (fuel : nat) (x f : float) (s s' : state)
    (v : float) :
  qsignrank_scan_high fuel x 4 4 f 0 0 (fresh4 s) = Return v s' ->
  v = 10 \/ v = 9.
Proof.
  destruct fuel as [|fuel]; [discriminate|].
  cbn [qsignrank_scan_high].
  destruct (csignrank_fresh4_zero s (S fuel)) as [-> | ->]; [discriminate|].
  cbn [bind JS.ToNumber].
  destruct (x <? 0 + 1 * f); [intros H; injection H as <- _; left; reflexivity|].
  destruct fuel as [|fuel]; [discriminate|].
  cbn [qsignrank_scan_high].
  change (csignrank (S fuel) (0 + 1) 4 (built4 s))
    with (Return (Some 1) (built4 s)).
  cbn [bind JS.ToNumber].
  destruct (x <? 0 + 1 * f + 1 * f);
    [intros H; injection H as <- _; right; reflexivity|].
  destruct fuel as [|fuel]; [discriminate|].
  cbn [qsignrank_scan_high].
  change (csignrank (S fuel) (0 + 1 + 1) 4 (built4 s))
    with (Return (Some nan) (built4 s)).
  cbn [bind JS.ToNumber].
  rewrite FloatFacts.mul_nan_l, FloatFacts.add_nan_r, FloatFacts.ltb_nan_r.
  rewrite qsignrank_scan_high_nan. discriminate.
Qed.

(** X9. For [n = 4], whatever the probability [x], the flags and the
    collaborators are, a value [qsignrank] returns is NaN, 0, 1, 9 or
    10: the scan stops within its first two terms or not at all, because
    the third term is the NaN slot of the table.  The quantiles 2 to 8
    are never returned. *)
Theorem qsignrank_4_values (fuel : nat) (x : float) (lower_tail log_p : bool)
    (s s' : state) (v : float) :
  qsignrank fuel x 4 lower_tail log_p s = Return v s' ->
  ISNAN v = true \/ v = 0 \/ v = 1 \/ v = 9 \/ v = 10.
Proof.
  unfold qsignrank, expression_statement.
  destruct (ISNAN x || ISNAN 4) eqn:N.
  { intros H; injection H as <- _. left.
    rewrite (add_nan_any x 4 N). reflexivity. }
  destruct (negb (R_FINITE x) || negb (R_FINITE 4)).
  { unfold return_ML_ERR_NAN. cbn. intros H; injection H as <- _.
    left; reflexivity. }
  unfold R_Q_P01_check.
  destruct ((log_p && (0 <? x)) || (negb log_p && ((x <? 0) || (1 <? x)))).
  { intros H; injection H as <- _. left; reflexivity. }
  change (R_forceint 4) with 4. cbv zeta.
  destruct (x =? R_DT_0 lower_tail log_p).
  { intros H; injection H as <- _. right; left; reflexivity. }
  destruct (x =? R_DT_1 lower_tail log_p).
  { intros H; injection H as <- _. do 4 right. reflexivity. }
  change (w_init_maybe (trunc 4) s) with (Return tt (fresh4 s)).
  change (trunc 4) with 4. cbn [bind].
  destruct (_ <=? 0.5); intros H.
  - apply qsignrank_scan_low_4_values in H. tauto.
  - apply qsignrank_scan_high_4_values in H. tauto.
Qed.

End CacheAndDiagnostics.

Lemma qsignrank_4_values_witness :
  @qsignrank sample_collaborators 5 0.1 4 true false initial_state
  = Return 1 (built4 initial_state) /\
  (ISNAN 1 = true \/ 1 = 0 \/ 1 = 1 \/ 1 = 9 \/ 1 = 10).
Proof.
  split; [reflexivity|].
  apply (@qsignrank_4_values sample_collaborators 5 0.1 true false
           initial_state (built4 initial_state) 1).
  reflexivity.
Defined.

(** ** The twin series of [_pnt] *)

Lemma filter_repeat_true {A} (f : A -> bool) (x : A) (n : nat) :
  f x = true -> filter f (repeat x n) = repeat x n.
Proof.
  intros H. induction n as [|n IH]; simpl; [reflexivity|].
  rewrite H, IH. reflexivity.
Qed.

Section TwinSeries.
Context {C : Collaborators}.

(** The loop reports no non-convergence itself, prints at most one
    entry more than it has iterations, and leaves [gotoFinis] false only
    after printing the iteration line [left] times. *)
Lemma pnt_series_log (left : nat) : forall it x b lambda v dl tnc g,
  pnt_series left it x b lambda v = (dl, tnc, g) ->
  existsb is_noconv dl = false /\
  (List.length dl <= S left)%nat /\
  (g = false -> dl = repeat iteration_line left).
Proof.
  induction left as [|left IH]; intros it x b lambda v dl tnc g; simpl.
  - intros H; injection H as <- <- <-.
    split; [reflexivity|split; [simpl; lia|reflexivity]].
  - destruct (_ <? -1e-10).
    { intros H; injection H as <- <- <-.
      split; [reflexivity|split; [simpl; lia|discriminate]]. }
    destruct (_ <=? 0).
    { intros H; injection H as <- <- <-.
      split; [reflexivity|split; [simpl; lia|discriminate]]. }
    destruct (fabs _ <? errmax).
    { intros H; injection H as <- <- <-.
      split; [reflexivity|split; [simpl; lia|discriminate]]. }
    destruct (pnt_series left _ _ _ _ _) as [[d r] g'] eqn:E.
    destruct (IH _ _ _ _ _ _ _ _ E) as (N & L & R).
    intros H; injection H as <- <- <-. split; [|split].
    + simpl. exact N.
    + simpl. lia.
    + intros G. rewrite (R G). reflexivity.
Qed.

(** X10. [_pnt] reports non-convergence ([ME_NOCONV]) only when the
    series loop has printed its iteration line exactly [itrmax] = 1000
    times, that is after the full thousand iterations and none of the
    stop tests; no other path of [_pnt] reports it. *)
Theorem pnt_noconv_after_itrmax (t df ncp : float) (lower_tail log_p : bool) :
  existsb is_noconv (fst (_pnt t df ncp lower_tail log_p)) = true ->
  List.length (filter is_iteration_line (fst (_pnt t df ncp lower_tail log_p)))
  = itrmax.
Proof.
  unfold _pnt, pnt_finis; cbv zeta.
  repeat match goal with
         | |- context [pnt_series ?n ?i ?x ?b ?l ?v] =>
             destruct (pnt_series n i x b l v) as [[dl tnc] g] eqn:E
         | |- existsb _ (fst (if ?c then _ else _)) = true -> _ => destruct c
         end;
    try (cbn; intros H; discriminate H);
    try (cbn [fst]; destruct (_ && _); cbn; intros H; discriminate H).
  destruct (pnt_series_log _ _ _ _ _ _ _ _ _ E) as (N & _ & R).
  cbn [fst]. rewrite !existsb_app, N.
  destruct g.
  - destruct (_ && _); cbn; intros H; discriminate H.
  - intros _. rewrite (R eq_refl).
    rewrite !filter_app, !length_app.
    rewrite (filter_repeat_true is_iteration_line iteration_line itrmax eq_refl).
    rewrite repeat_length.
    destruct (_ && _); cbn [filter is_iteration_line app List.length String.eqb];
      cbn; reflexivity.
Qed.

Lemma fmin2_at_most_one (q : float) : (1 <? fmin2 q 1) = false.
Proof.
  unfold fmin2.
  destruct (ISNAN q || ISNAN 1); [apply FloatFacts.ltb_nan_r|].
  destruct (1 <? q) eqn:A; [reflexivity|].
  destruct (q <? 1); [exact A|].
  change (1 / 1 <? 0) with false. rewrite andb_false_r. exact A.
Qed.

(** X11. Outside the asymptotic regime, for a finite [t], valid [df]
    and non-zero [ncp], the linear-scale probability [_pnt] returns for
    the tail on the side of [t] is never greater than 1, whatever
    [pbeta], [pnorm] and the other collaborators answer: the sum is
    clamped by [fmin2(tnc, 1)]. *)
Theorem pnt_same_side_at_most_one (t df ncp : float) (lower_tail : bool) :
  (df <=? 0) = false -> (ncp =? 0) = false -> R_FINITE t = true ->
  (4e5 <? df) || (2 * M_LN2 * - DBL_MIN_EXP <? pnt_del t ncp * pnt_del t ncp)
  = false ->
  xorb lower_tail (t <? 0) = true ->
  (1 <? snd (_pnt t df ncp lower_tail false)) = false.
Proof.
  intros Hdf Hncp Ft Hreg Hside. unfold _pnt, pnt_finis; cbv zeta.
  fold (pnt_del t ncp). rewrite Hdf, Hncp, Ft, Hreg. cbn [negb orb andb].
  destruct ((t <? 0) && (40 <? ncp) && true).
  { destruct lower_tail; reflexivity. }
  rewrite Hside.
  repeat match goal with
         | |- context [pnt_series ?n ?i ?x ?b ?l ?v] =>
             destruct (pnt_series n i x b l v) as [[dl tnc] g]
         | |- (1 <? snd (if ?c then _ else _)) = false => destruct c
         end;
    cbn [snd R_DT_val]; try apply fmin2_at_most_one.
  destruct lower_tail; reflexivity.
Qed.

End TwinSeries.

Lemma pnt_noconv_after_itrmax_witness :
  existsb is_noconv (fst (@_pnt sample_collaborators 1 3 1 true false)) = true /\
  List.length (filter is_iteration_line (fst (@_pnt sample_collaborators 1 3 1 true false)))
  = itrmax.
Proof.
  split; [vm_compute; reflexivity|].
  apply (@pnt_noconv_after_itrmax sample_collaborators 1 3 1 true false).
  vm_compute. reflexivity.
Defined.

Lemma pnt_same_side_at_most_one_witness :
  (1 <? snd (@_pnt sample_collaborators 1 3 1 true false)) = false /\
  (1 <? snd (@_pnt sample_collaborators (-1) 3 1 false false)) = false.
Proof.
  split; apply (@pnt_same_side_at_most_one sample_collaborators);
    vm_compute; reflexivity.
Defined.

(** ** [w_init_maybe] on the first four hundred sample sizes *)

(** For [n = 1 .. 400] the constructor yields an array exactly when
    [u = n(n+1)/2] is even, and its length is then [u/2 + 1]. *)
Lemma new_Array_upto_400 :
  forallb (fun k =>
             let n := Z.of_nat k in
             let u := (n * (n + 1) / 2)%Z in
             match new_Array_for n with
             | Some a => Z.even u && (JS.length a =? u / 2 + 1)%Z
             | None => negb (Z.even u)
             end) (seq 1 400) = true.
Proof. vm_compute. reflexivity. Qed.

(** X12. For every integer [n] from 1 to 400 and from every state:
    when [u = n(n+1)/2] is even, [w_init_maybe(n)] returns, with a table
    of length [u/2 + 1], [allocated_n = n] and the diagnostics as they
    were; when [u] is odd it throws a RangeError. *)
Theorem w_init_maybe_parity (k : nat) (s : state) :
  (1 <= k <= 400)%nat ->
  if Z.even (Z.of_nat k * (Z.of_nat k + 1) / 2)
  then exists a,
      w_init_maybe (JS.of_Z (Z.of_nat k)) s
      = Return tt {| w := Some a; allocated_n := Some (JS.of_Z (Z.of_nat k));
                     diags := diags s |} /\
      JS.length a = (Z.of_nat k * (Z.of_nat k + 1) / 2 / 2 + 1)%Z
  else w_init_maybe (JS.of_Z (Z.of_nat k)) s = Throws JS.RangeError.
Proof.
  intros Hk.
  assert (Hin : In k (seq 1 400)) by (apply in_seq; lia).
  pose proof (proj1 (forallb_forall _ _) new_Array_upto_400 k Hin) as H.
  cbv beta zeta in H.
  unfold w_init_maybe; cbv zeta. fold (new_Array_for (Z.of_nat k)).
  destruct (new_Array_for (Z.of_nat k)) as [a|];
    destruct (Z.even (Z.of_nat k * (Z.of_nat k + 1) / 2)); simpl in H;
    try discriminate H.
  - exists a. split; [reflexivity|]. apply Z.eqb_eq. exact H.
  - reflexivity.
Qed.

Lemma w_init_maybe_parity_witness :
  (exists a,
      w_init_maybe (JS.of_Z (Z.of_nat 7)) (built4 initial_state)
      = Return tt {| w := Some a; allocated_n := Some (JS.of_Z (Z.of_nat 7));
                     diags := diags (built4 initial_state) |} /\
      JS.length a = 15%Z) /\
  w_init_maybe (JS.of_Z (Z.of_nat 5)) initial_state = Throws JS.RangeError.
Proof.
  split.
  - apply (w_init_maybe_parity 7 (built4 initial_state)). lia.
  - apply (w_init_maybe_parity 5 initial_state). lia.
Defined.

(** ** Exceptions *)

Lemma table_safe_bind {A B} (m : outcome A) (k : A -> state -> outcome B) :
  table_safe m ->
  (forall a s', w s' <> None -> table_safe (k a s')) ->
  table_safe (bind m k).
Proof.
  destruct m as [a s'| |]; simpl; auto.
Qed.

Lemma csignrank_table_safe (fuel : nat) (k n : float) (s : state) :
  w s <> None -> table_safe (csignrank fuel k n s).
Proof.
  intros Hw. unfold csignrank; cbv zeta.
  destruct ((k <? 0) || (n * (n + 1) / 2 <? k)); [exact Hw|].
  destruct (n =? 1); [exact Hw|].
  destruct (w s) as [a|] eqn:E; [|congruence].
  destruct (JS.strict_eq (JS.get a 0) 1); [simpl; congruence|].
  match goal with
  | |- context [csignrank_outer ?f1 ?f2 ?n' ?c ?j ?a'] =>
      destruct (csignrank_outer f1 f2 n' c j a')
  end; simpl; [discriminate|exact I].
Qed.

Lemma throws_at_most_RangeError_init {B} (n : float) (s : state)
    (k : unit -> state -> outcome B) :
  (forall a s', w s' <> None -> table_safe (k a s')) ->
  throws_at_most_RangeError (bind (w_init_maybe n s) k).
Proof.
  intros Hk. unfold w_init_maybe; cbv zeta.
  destruct (JS.new_Array (n * (n + 1) / 2 / 2 + 1)) as [a|]; simpl;
    [|reflexivity].
  match goal with
  | |- throws_at_most_RangeError (k tt ?s') =>
      specialize (Hk tt s'); destruct (k tt s')
  end; simpl in *; auto.
  exfalso. apply Hk. discriminate.
Qed.

Section Exceptions.
Context {C : Collaborators}.

Lemma psignrank_loop_table_safe (fuel : nat) : forall strict x nn f i p s,
  w s <> None -> table_safe (psignrank_loop fuel strict x nn f i p s).
Proof.
  induction fuel as [|fuel IH]; intros strict x nn f i p s Hw; simpl; auto.
  destruct (if strict then i <? x else i <=? x); [|exact Hw].
  apply table_safe_bind; [apply csignrank_table_safe; exact Hw|].
  intros a s' Hs'. apply IH. exact Hs'.
Qed.

Lemma qsignrank_scan_low_table_safe (fuel : nat) : forall x nn f p q s,
  w s <> None -> table_safe (qsignrank_scan_low fuel x nn f p q s).
Proof.
  induction fuel as [|fuel IH]; intros x nn f p q s Hw; simpl; auto.
  apply table_safe_bind; [apply csignrank_table_safe; exact Hw|].
  intros a s' Hs'.
  destruct (x <=? p + JS.ToNumber a * f); [exact Hs'|apply IH; exact Hs'].
Qed.

Lemma qsignrank_scan_high_table_safe (fuel : nat) : forall x n nn f p q s,
  w s <> None -> table_safe (qsignrank_scan_high fuel x n nn f p q s).
Proof.
  induction fuel as [|fuel IH]; intros x n nn f p q s Hw; simpl; auto.
  apply table_safe_bind; [apply csignrank_table_safe; exact Hw|].
  intros a s' Hs'.
  destruct (x <? p + JS.ToNumber a * f); [exact Hs'|apply IH; exact Hs'].
Qed.

(** X13. [dsignrank], [psignrank] and [qsignrank] never end in a
    TypeError on an undefined table, even when called first thing: the
    table is allocated before the first lookup and [csignrank] keeps it.
    The one exception they can raise is the RangeError of the
    allocation. *)
Theorem entry_points_throw_at_most_RangeError (fuel : nat) (x n : float)
    (lower_tail log_p : bool) (s : state) :
  throws_at_most_RangeError (dsignrank fuel x n log_p s) /\
  throws_at_most_RangeError (psignrank fuel x n lower_tail log_p s) /\
  throws_at_most_RangeError (qsignrank fuel x n lower_tail log_p s).
Proof.
  split; [|split].
  - unfold dsignrank; cbv zeta.
    destruct (ISNAN x || ISNAN n); [exact I|].
    destruct (R_forceint n <=? 0); [exact I|].
    destruct (1e-7 <? fabs (x - R_forceint x)); [exact I|].
    destruct ((R_forceint x <? 0) || _); [exact I|].
    apply throws_at_most_RangeError_init. intros [] s1 H1.
    apply table_safe_bind; [apply csignrank_table_safe; exact H1|].
    intros v s2 H2. exact H2.
  - unfold psignrank, expression_statement; cbv zeta.
    destruct (ISNAN x || ISNAN n); [exact I|].
    destruct (R_forceint (x + 1e-7) <? 0); [exact I|].
    destruct (_ <=? R_forceint (x + 1e-7)); [exact I|].
    apply throws_at_most_RangeError_init. intros [] s1 H1.
    destruct (R_forceint (x + 1e-7) <=? _);
      (apply table_safe_bind; [apply psignrank_loop_table_safe; exact H1|]);
      intros v s2 H2; exact H2.
  - unfold qsignrank, expression_statement; cbv zeta.
    destruct (ISNAN x || ISNAN n); [exact I|].
    destruct (negb (R_FINITE x) || negb (R_FINITE n)); [exact I|].
    destruct (R_Q_P01_check log_p x); [exact I|].
    destruct (x =? R_DT_0 lower_tail log_p); [exact I|].
    destruct (x =? R_DT_1 lower_tail log_p); [exact I|].
    apply throws_at_most_RangeError_init. intros [] s1 H1.
    destruct (_ <=? 0.5);
      [apply qsignrank_scan_low_table_safe
      |apply qsignrank_scan_high_table_safe]; exact H1.
Qed.

End Exceptions.
